(** * MPAS bootstrap: a shallow embedding of the installation orchestrator

    The development follows the Go sources of [pkg/bootstrap]: the option
    record and its defaults ([bootstrap.New], [setDefaults], [WithTarget]) and
    the Flux installer ([getComponentVersion], [getResources],
    [getResourceRef], [generateGOTKComponent], [cloneRepository], [retry],
    [commitAndPushComponents], [Install]).

    Conventions.
    - A Go [error] value is an [option error]: [None] is [nil].
    - A Go byte slice is an [option (list byte)]: [None] is the nil slice,
      [Some []] an empty slice that is not nil.
    - A call to an external capability (Git, file system, cluster) acts on an
      abstract world and is recorded, with its error result, in a trace.
    - A run-time panic (index out of range, failed type assertion) is an
      outcome of its own, distinct from a returned error. *)

From Stdlib Require Import ZArith String Ascii List Lia Bool.
From stdpp Require Import base option list gmap strings.

Import ListNotations.
Local Open Scope string_scope.

(** ** The fragment of Go's [strings] package the sources use *)

Module GoStrings.

(** [strings.HasSuffix(s, suffix)]:
    [len(s) >= len(suffix) && s[len(s)-len(suffix):] == suffix]. *)
Definition HasSuffix (s suffix : string) : bool :=
  (String.length suffix <=? String.length s)%nat
  && String.eqb
       (substring (String.length s - String.length suffix)
                  (String.length suffix) s)
       suffix.

(** [strings.TrimSuffix(s, suffix)]: [s] without the trailing [suffix]
    when it has one, [s] itself otherwise. *)
Definition TrimSuffix (s suffix : string) : string :=
  if HasSuffix s suffix
  then substring 0 (String.length s - String.length suffix) s
  else s.

(** [strings.Split(s, sep)] at a one-byte separator: all the substrings
    between occurrences of [sep]; the result is never empty.  [splitOn]
    carries the current segment. *)
Fixpoint splitOn (sep : ascii) (cur : string) (s : string) : list string :=
  match s with
  | EmptyString => [cur]
  | String c rest =>
      if Ascii.eqb c sep
      then cur :: splitOn sep EmptyString rest
      else splitOn sep (cur ++ String c EmptyString) rest
  end.

Definition Split (s : string) (sep : ascii) : list string :=
  splitOn sep EmptyString s.

(** Number of occurrences of a byte, [strings.Count] at a one-byte
    separator. *)
Fixpoint Count (s : string) (sep : ascii) : nat :=
  match s with
  | EmptyString => 0
  | String c rest => (if Ascii.eqb c sep then 1 else 0) + Count rest sep
  end.

End GoStrings.

(** ** Go errors *)

(** The error values the orchestrator creates, receives and compares.
    [errorString] is [errors.New] (and any opaque error of an external
    capability), [wrapError] is [fmt.Errorf("<msg>: %w", err)], [joinError]
    the value built by [errors.Join].  The two sentinels are compared by
    identity in the sources ([err != git.ErrNoStagedFiles]), so a wrapped
    sentinel is a different value. *)
#[warnings="-register-all"]
Inductive error : Type :=
| ErrNoStagedFiles
| ErrNoGitRepository
| errorString (msg : string)
| wrapError (msg : string) (err : error)
| joinError (errs : list error).

Definition errors_New (msg : string) : error := errorString msg.

Definition fmt_Errorf (msg : string) (err : error) : error := wrapError msg err.

(** [errors.Join(errs...)]: nil values are discarded; the result is nil when
    every value is nil. *)
Definition errors_Join (errs : list (option error)) : option error :=
  match omap id errs with
  | [] => None
  | es => Some (joinError es)
  end.

(** [err != sentinel] for the two sentinels. *)
Definition isErrNoStagedFiles (e : error) : bool :=
  match e with ErrNoStagedFiles => true | _ => false end.

Definition isErrNoGitRepository (e : error) : bool :=
  match e with ErrNoGitRepository => true | _ => false end.

(** A Go byte slice: [None] is nil. *)
Definition bytes : Type := option (list Byte.byte).

(** ** Bootstrap options (bootstrap.go) *)

Module Bootstrap.
Section Options.

(** The handles the options carry are opaque to this package; a nil
    interface or pointer is [None]. *)
Context {Client RESTClientGetter Printer ProviderClient UserRepository : Type}.

Record options : Type := mkOptions {
  description : string;
  defaultBranch : string;
  visibility : string;
  personal : bool;
  owner : string;
  token : string;
  repositoryName : string;
  target : string;
  fromFile : string;
  registry : string;
  dockerConfigPath : string;
  transportType : string;
  kubeclient : option Client;
  restClientGetter : option RESTClientGetter;
  components : list string;
  interval : Z;
  timeout : Z;
  printer : option Printer
}.

(** The zero value of [options]. *)
Definition zeroOptions : options :=
  mkOptions "" "" "" false "" "" "" "" "" "" "" "" None None [] 0 0 None.

(** [type Option func(o *options)]: the update an option performs. *)
Definition Option : Type := options -> options.

Record BootstrapT : Type := mkBootstrap {
  ProviderClientOf : option ProviderClient;
  repository : option UserRepository;
  url : string;
  opts : options
}.

Definition WithInterval (i : Z) : Option := fun o =>
  mkOptions (description o) (defaultBranch o) (visibility o) (personal o)
    (owner o) (token o) (repositoryName o) (target o) (fromFile o)
    (registry o) (dockerConfigPath o) (transportType o) (kubeclient o)
    (restClientGetter o) (components o) i (timeout o) (printer o).

Definition WithTimeout (t : Z) : Option := fun o =>
  mkOptions (description o) (defaultBranch o) (visibility o) (personal o)
    (owner o) (token o) (repositoryName o) (target o) (fromFile o)
    (registry o) (dockerConfigPath o) (transportType o) (kubeclient o)
    (restClientGetter o) (components o) (interval o) t (printer o).

Definition WithRESTClientGetter (g : option RESTClientGetter) : Option := fun o =>
  mkOptions (description o) (defaultBranch o) (visibility o) (personal o)
    (owner o) (token o) (repositoryName o) (target o) (fromFile o)
    (registry o) (dockerConfigPath o) (transportType o) (kubeclient o)
    g (components o) (interval o) (timeout o) (printer o).

Definition WithKubeClient (c : option Client) : Option := fun o =>
  mkOptions (description o) (defaultBranch o) (visibility o) (personal o)
    (owner o) (token o) (repositoryName o) (target o) (fromFile o)
    (registry o) (dockerConfigPath o) (transportType o) c
    (restClientGetter o) (components o) (interval o) (timeout o) (printer o).

Definition WithDockerConfigPath (p : string) : Option := fun o =>
  mkOptions (description o) (defaultBranch o) (visibility o) (personal o)
    (owner o) (token o) (repositoryName o) (target o) (fromFile o)
    (registry o) p (transportType o) (kubeclient o)
    (restClientGetter o) (components o) (interval o) (timeout o) (printer o).

Definition setTarget (t : string) : Option := fun o =>
  mkOptions (description o) (defaultBranch o) (visibility o) (personal o)
    (owner o) (token o) (repositoryName o) t (fromFile o)
    (registry o) (dockerConfigPath o) (transportType o) (kubeclient o)
    (restClientGetter o) (components o) (interval o) (timeout o) (printer o).

(** [WithTarget]: [target = strings.TrimSuffix(target, "/"); o.target = target]. *)
Definition WithTarget (t : string) : Option :=
  setTarget (GoStrings.TrimSuffix t "/").

Definition WithPrinter (p : option Printer) : Option := fun o =>
  mkOptions (description o) (defaultBranch o) (visibility o) (personal o)
    (owner o) (token o) (repositoryName o) (target o) (fromFile o)
    (registry o) (dockerConfigPath o) (transportType o) (kubeclient o)
    (restClientGetter o) (components o) (interval o) (timeout o) p.

Definition WithComponents (cs : list string) : Option := fun o =>
  mkOptions (description o) (defaultBranch o) (visibility o) (personal o)
    (owner o) (token o) (repositoryName o) (target o) (fromFile o)
    (registry o) (dockerConfigPath o) (transportType o) (kubeclient o)
    (restClientGetter o) cs (interval o) (timeout o) (printer o).

Definition WithDescription (d : string) : Option := fun o =>
  mkOptions d (defaultBranch o) (visibility o) (personal o)
    (owner o) (token o) (repositoryName o) (target o) (fromFile o)
    (registry o) (dockerConfigPath o) (transportType o) (kubeclient o)
    (restClientGetter o) (components o) (interval o) (timeout o) (printer o).

Definition WithDefaultBranch (b : string) : Option := fun o =>
  mkOptions (description o) b (visibility o) (personal o)
    (owner o) (token o) (repositoryName o) (target o) (fromFile o)
    (registry o) (dockerConfigPath o) (transportType o) (kubeclient o)
    (restClientGetter o) (components o) (interval o) (timeout o) (printer o).

Definition WithVisibility (v : string) : Option := fun o =>
  mkOptions (description o) (defaultBranch o) v (personal o)
    (owner o) (token o) (repositoryName o) (target o) (fromFile o)
    (registry o) (dockerConfigPath o) (transportType o) (kubeclient o)
    (restClientGetter o) (components o) (interval o) (timeout o) (printer o).

Definition WithPersonal (p : bool) : Option := fun o =>
  mkOptions (description o) (defaultBranch o) (visibility o) p
    (owner o) (token o) (repositoryName o) (target o) (fromFile o)
    (registry o) (dockerConfigPath o) (transportType o) (kubeclient o)
    (restClientGetter o) (components o) (interval o) (timeout o) (printer o).

Definition WithOwner (w : string) : Option := fun o =>
  mkOptions (description o) (defaultBranch o) (visibility o) (personal o)
    w (token o) (repositoryName o) (target o) (fromFile o)
    (registry o) (dockerConfigPath o) (transportType o) (kubeclient o)
    (restClientGetter o) (components o) (interval o) (timeout o) (printer o).

Definition WithToken (t : string) : Option := fun o =>
  mkOptions (description o) (defaultBranch o) (visibility o) (personal o)
    (owner o) t (repositoryName o) (target o) (fromFile o)
    (registry o) (dockerConfigPath o) (transportType o) (kubeclient o)
    (restClientGetter o) (components o) (interval o) (timeout o) (printer o).

Definition WithRepositoryName (n : string) : Option := fun o =>
  mkOptions (description o) (defaultBranch o) (visibility o) (personal o)
    (owner o) (token o) n (target o) (fromFile o)
    (registry o) (dockerConfigPath o) (transportType o) (kubeclient o)
    (restClientGetter o) (components o) (interval o) (timeout o) (printer o).

Definition WithFromFile (f : string) : Option := fun o =>
  mkOptions (description o) (defaultBranch o) (visibility o) (personal o)
    (owner o) (token o) (repositoryName o) (target o) f
    (registry o) (dockerConfigPath o) (transportType o) (kubeclient o)
    (restClientGetter o) (components o) (interval o) (timeout o) (printer o).

Definition WithRegistry (r : string) : Option := fun o =>
  mkOptions (description o) (defaultBranch o) (visibility o) (personal o)
    (owner o) (token o) (repositoryName o) (target o) (fromFile o)
    r (dockerConfigPath o) (transportType o) (kubeclient o)
    (restClientGetter o) (components o) (interval o) (timeout o) (printer o).

Definition WithTransportType (t : string) : Option := fun o =>
  mkOptions (description o) (defaultBranch o) (visibility o) (personal o)
    (owner o) (token o) (repositoryName o) (target o) (fromFile o)
    (registry o) (dockerConfigPath o) t (kubeclient o)
    (restClientGetter o) (components o) (interval o) (timeout o) (printer o).

(** [if field == "" { field = default }]. *)
Definition orDefault (field default : string) : string :=
  if String.eqb field "" then default else field.

(** [setDefaults]: the four guarded assignments, in source order. *)
Definition setDefaultsOptions (o : options) : options :=
  let o1 := WithDescription
              (orDefault (description o)
                 "Management repository for the Open Component Model") o in
  let o2 := WithDefaultBranch (orDefault (defaultBranch o1) "main") o1 in
  let o3 := WithVisibility (orDefault (visibility o2) "private") o2 in
  WithTransportType (orDefault (transportType o3) "https") o3.

Definition setDefaults (b : BootstrapT) : BootstrapT :=
  mkBootstrap (ProviderClientOf b) (repository b) (url b)
    (setDefaultsOptions (opts b)).

(** [for _, opt := range opts { opt(&b.options) }]. *)
Definition applyOptions (os : list Option) (o : options) : options :=
  fold_left (fun acc opt => opt acc) os o.

(** [New]: a Bootstrap holding the provider client, the options applied in
    order to the zero record, then the defaults. *)
Definition New (pc : option ProviderClient) (os : list Option) : BootstrapT :=
  let b := mkBootstrap pc None "" zeroOptions in
  let b := mkBootstrap (ProviderClientOf b) (repository b) (url b)
             (applyOptions os (opts b)) in
  setDefaults b.

End Options.
End Bootstrap.

(** ** Results, outcomes *)

(** A Go pair [(T, error)]: the value when the error is nil. *)
Inductive result (A : Type) : Type :=
| Ok (a : A)
| Err (e : error).
Arguments Ok {A} a.
Arguments Err {A} e.

(** What a call does: return, or panic at run time. *)
Inductive outcome (A : Type) : Type :=
| Returns (a : A)
| Panics (msg : string).
Arguments Returns {A} a.
Arguments Panics {A} msg.

(** ** The semantic-version library (Masterminds/semver), as an interface *)

Module Semver.

(** What [getComponentVersion] uses of the library: [semver.NewVersion],
    [semver.NewConstraint], [Constraints.Check] and [Version.Original]. *)
Record Lib : Type := mkLib {
  Version : Type;
  Constraints : Type;
  NewVersion : string -> result Version;
  NewConstraint : string -> result Constraints;
  Check : Constraints -> Version -> bool;
  Original : Version -> string
}.

(** [Version.Original] returns the string the version was parsed from. *)
Definition OriginalLaw (sv : Lib) : Prop :=
  forall s v, NewVersion sv s = Ok v -> Original sv v = s.

End Semver.

(** ** The component repository (OCM), consumed read-only *)

Module OCM.

(** A byte stream: what reading it to the end delivers, and the error the
    read ends with, if any. *)
Record ReadCloser : Type := mkReadCloser {
  streamData : list Byte.byte;
  streamErr : option error
}.

(** [io.ReadAll]: the slice it allocates is never nil, also for an empty
    stream; on a read error the bytes read so far come with the error. *)
Definition io_ReadAll (r : ReadCloser) : bytes * option error :=
  (Some (streamData r), streamErr r).

Record AccessMethodT : Type := mkAccessMethod {
  Reader : result ReadCloser
}.

(** An access specification: the OCI artifact one carries the image
    reference; the others (local blob, ...) are told apart by their kind. *)
Inductive AccessSpec : Type :=
| OCIArtifactAccessSpec (ImageReference : string)
| OtherAccessSpec (kind : string).

Record ResourceAccess : Type := mkResource {
  Meta_Name : string;
  Meta_Type : string;
  Access : result AccessSpec;
  AccessMethod : result AccessMethodT
}.

Record ComponentVersionAccess : Type := mkComponentVersion {
  GetVersion : string;
  GetResources : list ResourceAccess
}.

Record ComponentAccess : Type := mkComponent {
  ListVersions : result (list string);
  LookupVersion : string -> result ComponentVersionAccess
}.

Record Repository : Type := mkRepository {
  LookupComponent : string -> result ComponentAccess
}.

End OCM.

(** ** Kustomize and configuration data, as far as the installer fills them *)

Record nameTag : Type := mkNameTag {
  Name : string;
  Tag : string
}.

(** [kustypes.Image]: the fields [generateGOTKComponent] sets. *)
Record Image : Type := mkImage {
  ImageName : string;
  NewName : string;
  NewTag : string
}.

Record Kustomization : Type := mkKustomization {
  APIVersion : string;
  Kind : string;
  Resources : list string;
  Images : list Image
}.

(** [cfd.ConfigData]: a localization rule names the resource whose image it
    substitutes. *)
Record LocalizationRule : Type := mkLocalizationRule {
  Resource_Name : string;
  File : string;
  ImagePath : string
}.

Record ConfigData : Type := mkConfigData {
  Localization : list LocalizationRule
}.

(** The resources extracted from the component version. *)
Record resources : Type := mkResources {
  componentResource : bytes;
  ocmConfig : bytes;
  imagesResources : gmap string nameTag;
  compomentsList : list string
}.

(** ** Version resolution and resource extraction (flux.go) *)

Module Flux.
Import OCM.

Section Resolve.

Variable sv : Semver.Lib.

(** The loop of [getComponentVersion]: parse each name in listing order, fail
    on the first that does not parse, stop at the first that passes the
    check.  [None] is the nil [ver] left when the loop runs out. *)
Fixpoint findVersion (constraint : Semver.Constraints sv) (vnames : list string)
  : result (option (Semver.Version sv)) :=
  match vnames with
  | [] => Ok None
  | vname :: rest =>
      match Semver.NewVersion sv vname with
      | Err err => Err err
      | Ok v =>
          if Semver.Check sv constraint v
          then Ok (Some v)
          else findVersion constraint rest
      end
  end.

(** [getComponentVersion] returns the component version matching the given
    version constraint. *)
Definition getComponentVersion (repository : Repository)
    (componentName version : string) : result ComponentVersionAccess :=
  match LookupComponent repository componentName with
  | Err err => Err err
  | Ok c =>
      match ListVersions c with
      | Err err => Err err
      | Ok vnames =>
          match Semver.NewConstraint sv version with
          | Err err => Err err
          | Ok constraint =>
              match findVersion constraint vnames with
              | Err err => Err err
              | Ok None => Err (errors_New "no matching version found")
              | Ok (Some ver) => LookupVersion c (Semver.Original sv ver)
              end
          end
      end
  end.

End Resolve.

Section Extract.

(** [compression.AutoDecompress]: the stream to read from, and whether it
    was compressed. *)
Variable AutoDecompress : ReadCloser -> result (ReadCloser * bool).

Definition getResourceContent (resource : ResourceAccess) : result bytes :=
  match AccessMethod resource with
  | Err err => Err err
  | Ok access =>
      match Reader access with
      | Err err => Err err
      | Ok reader =>
          match AutoDecompress reader with
          | Err err => Err err
          | Ok (decompressedReader, _) =>
              match io_ReadAll decompressedReader with
              | (data, None) => Ok data
              | (_, Some err) => Err err
              end
          end
      end
  end.

(** [getResourceRef]: no error result; a failing [Access] gives two empty
    strings, an access specification of another type fails the type
    assertion, and a reference without [:] has no element 1. *)
Definition getResourceRef (resource : ResourceAccess) : outcome (string * string) :=
  match Access resource with
  | Err _ => Returns ("", "")
  | Ok (OtherAccessSpec kind) =>
      Panics "interface conversion: not *ociartifact.AccessSpec"
  | Ok (OCIArtifactAccessSpec im) =>
      match GoStrings.Split im ":" with
      | name :: version :: _ => Returns (name, version)
      | _ => Panics "index out of range [1] with length 1"
      end
  end.

Definition setComponentResource (r : resources) (b : bytes) : resources :=
  mkResources b (ocmConfig r) (imagesResources r) (compomentsList r).

Definition setOcmConfig (r : resources) (b : bytes) : resources :=
  mkResources (componentResource r) b (imagesResources r) (compomentsList r).

Definition addImage (r : resources) (key : string) (nt : nameTag) : resources :=
  mkResources (componentResource r) (ocmConfig r)
    (<[key := nt]> (imagesResources r)) (compomentsList r ++ [key]).

(** The loop of [getResources]; the [switch] takes the first case that
    matches, so a component named like the config document takes it all. *)
Fixpoint getResourcesLoop (componentName : string) (res : list ResourceAccess)
    (acc : resources) : outcome (result resources) :=
  match res with
  | [] => Returns (Ok acc)
  | resource :: rest =>
      if String.eqb (Meta_Name resource) componentName then
        match getResourceContent resource with
        | Err err => Returns (Err err)
        | Ok content =>
            getResourcesLoop componentName rest (setComponentResource acc content)
        end
      else if String.eqb (Meta_Name resource) "ocm-config" then
        match getResourceContent resource with
        | Err err => Returns (Err err)
        | Ok content =>
            getResourcesLoop componentName rest (setOcmConfig acc content)
        end
      else if String.eqb (Meta_Type resource) "ociImage" then
        match getResourceRef resource with
        | Panics msg => Panics msg
        | Returns (name, version) =>
            getResourcesLoop componentName rest
              (addImage acc (Meta_Name resource) (mkNameTag name version))
        end
      else getResourcesLoop componentName rest acc
  end.

Definition getResources (cv : ComponentVersionAccess) (componentName : string)
  : outcome (result resources) :=
  getResourcesLoop componentName (GetResources cv)
    (mkResources None None ∅ []).

End Extract.

Section Localize.

(** [env.DefaultFluxHost], a constant of [pkg/env]. *)
Variable DefaultFluxHost : string.

(** [imagesResources[name]]: the zero [nameTag] for a missing key. *)
Definition lookupImage (imagesResources : gmap string nameTag) (name : string)
  : nameTag :=
  default (mkNameTag "" "") (imagesResources !! name).

Definition appendImage (kus : Kustomization) (im : Image) : Kustomization :=
  mkKustomization (APIVersion kus) (Kind kus) (Resources kus) (Images kus ++ [im]).

(** The loop of [generateGOTKComponent]: one image appended per rule. *)
Definition localizeImages (kconfig : ConfigData)
    (imagesResources : gmap string nameTag) (kus : Kustomization) : Kustomization :=
  fold_left
    (fun kus loc =>
       let image := lookupImage imagesResources (Resource_Name loc) in
       appendImage kus
         (mkImage (DefaultFluxHost ++ "/" ++ Resource_Name loc)
                  (Name image) (Tag image)))
    (Localization kconfig) kus.

End Localize.

End Flux.

(** ** External capabilities, the world and the trace *)

Module Run.

(** [sourcesecret.Options], [sync.Options] and [install.Options], with the
    fields [Install] fills. *)
Record SecretOptions : Type := mkSecretOptions {
  secretName : string;
  secretNamespace : string;
  secretTargetPath : string;
  secretManifestFile : string;
  secretUsername : string;
  secretPassword : string
}.

Record SyncOptions : Type := mkSyncOptions {
  syncInterval : Z;
  syncName : string;
  syncNamespace : string;
  syncURL : string;
  syncBranch : string;
  syncSecret : string;
  syncTargetPath : string;
  syncManifestFile : string;
  syncRecurseSubmodules : bool
}.

Record InstallOptions : Type := mkInstallOptions {
  installNamespace : string;
  installComponents : list string
}.

(** The calls the installer makes to its collaborators. *)
Inductive Op : Type :=
| GitHead
| GitClone (url branch : string)
| GitCommit (message path content : string)
| GitPush
| OsReadDir (path : string)
| OsRemoveAll (path : string)
| OsWriteFile (path : string) (data : bytes)
| OsCreate (path : string)
| OsReadFile (path : string)
| OsRemove (path : string)
| OsStat (path : string)
| TimeSleep (d : Z)
| MuLock
| MuUnlock
| KustomizeBuild (dir : string)
| KubeMustInstallKustomization (name namespace : string)
| KubeApply (root file : string)
| ReconcileSourceSecret (o : SecretOptions)
| ReconcileSyncConfig (o : SyncOptions)
| ReportKustomizationHealth (o : SyncOptions) (poll timeout : Z)
| ReportComponentsHealth (o : InstallOptions) (timeout : Z)
| CallFn (label : string).

(** One entry of the trace: the call and the error it returned. *)
Record Event : Type := mkEvent {
  evOp : Op;
  evErr : option error
}.

Definition isGitOp (o : Op) : bool :=
  match o with
  | GitHead | GitClone _ _ | GitCommit _ _ _ | GitPush => true
  | _ => false
  end.

Definition isClone (o : Op) : bool :=
  match o with GitClone _ _ => true | _ => false end.

Definition isCommit (o : Op) : bool :=
  match o with GitCommit _ _ _ => true | _ => false end.

Definition isPush (o : Op) : bool :=
  match o with GitPush => true | _ => false end.

Definition isSleep (o : Op) : bool :=
  match o with TimeSleep _ => true | _ => false end.

Definition isCallFn (o : Op) : bool :=
  match o with CallFn _ => true | _ => false end.

Definition isKustomizationHealth (o : Op) : bool :=
  match o with ReportKustomizationHealth _ _ _ => true | _ => false end.

Definition isComponentsHealth (o : Op) : bool :=
  match o with ReportComponentsHealth _ _ => true | _ => false end.

(** How many events of a kind a trace holds. *)
Definition countOps (p : Op -> bool) (tr : list Event) : nat :=
  length (filter (fun e => p (evOp e) = true) tr).

(** What [kustomize.Build] returns: a resource map and its [AsYaml]. *)
Record ResMap : Type := mkResMap {
  AsYaml : result bytes
}.

(** The collaborators, over a world [W] they read and change.  The pure
    ones (YAML, paths) and the constants of other packages come along. *)
Section Capabilities.

Context {W : Type}.

Record Sys : Type := mkSys {
  git_Head : W -> option error * W;
  git_Clone : string -> string -> W -> option error * W;
  git_Commit : string -> string -> string -> W -> option error * W;
  git_Push : W -> option error * W;
  git_Path : string;
  os_ReadDir : string -> W -> result (list string) * W;
  os_RemoveAll : string -> W -> option error * W;
  os_WriteFile : string -> bytes -> W -> option error * W;
  os_Create : string -> W -> option error * W;
  os_ReadFile : string -> W -> result bytes * W;
  os_Remove : string -> W -> option error * W;
  os_Stat : string -> W -> option error * W;
  time_Sleep : Z -> W -> W;
  kustomize_Build : string -> W -> result ResMap * W;
  kube_MustInstallKustomization : string -> string -> W -> bool * W;
  kube_Apply : string -> string -> W -> option error * W;
  flux_ReconcileSourceSecret : SecretOptions -> W -> option error * W;
  flux_ReconcileSyncConfig : SyncOptions -> W -> option error * W;
  flux_ReportKustomizationHealth : SyncOptions -> Z -> Z -> W -> option error * W;
  flux_ReportComponentsHealth : InstallOptions -> Z -> W -> option error * W;
  yaml_Marshal : Kustomization -> result bytes;
  yaml_Unmarshal : bytes -> Kustomization -> result Kustomization;
  decodeConfigData : bytes -> result ConfigData;
  AutoDecompress : OCM.ReadCloser -> result (OCM.ReadCloser * bool);
  filepath_Join : string -> string -> string;
  filepath_Dir : string -> string;
  DefaultKustomizationFileName : string;
  KustomizationVersion : string;
  KustomizationKind : string;
  SecretManifestFile : string;
  SyncManifestFile : string;
  DefaultFluxHost : string;
  DefaultPollInterval : Z
}.

End Capabilities.

Arguments Sys W : clear implicits.

Section Monad.

Context {W : Type}.

Record State : Type := mkState {
  world : W;
  trace : list Event
}.

(** A computation: it runs from a state to an outcome and a state. *)
Definition M (A : Type) : Type := State -> outcome A * State.

Definition ret {A} (a : A) : M A := fun st => (Returns a, st).

Definition bind {A B} (m : M A) (k : A -> M B) : M B :=
  fun st =>
    match m st with
    | (Returns a, st') => k a st'
    | (Panics msg, st') => (Panics msg, st')
    end.

Definition panic {A} (msg : string) : M A := fun st => (Panics msg, st).

Definition liftOutcome {A} (o : outcome A) : M A :=
  fun st => (o, st).

(** A call that returns a Go [error]. *)
Definition callErr (op : Op) (f : W -> option error * W) : M (option error) :=
  fun st =>
    let (r, w) := f (world st) in
    (Returns r, mkState w (trace st ++ [mkEvent op r])).

(** A call that returns a value and an error. *)
Definition callRes {A} (op : Op) (f : W -> result A * W) : M (result A) :=
  fun st =>
    let (r, w) := f (world st) in
    (Returns r,
     mkState w
       (trace st ++ [mkEvent op (match r with Err e => Some e | Ok _ => None end)])).

(** A call that cannot fail. *)
Definition callVal {A} (op : Op) (f : W -> A * W) : M A :=
  fun st =>
    let (r, w) := f (world st) in
    (Returns r, mkState w (trace st ++ [mkEvent op None])).

(** An event with no effect on the world (taking or releasing the lock). *)
Definition mark (op : Op) : M unit :=
  fun st => (Returns tt, mkState (world st) (trace st ++ [mkEvent op None])).

End Monad.

Arguments State W : clear implicits.
Arguments M W A : clear implicits.

End Run.

Notation "'let*' x ':=' m 'in' k" := (Run.bind m (fun x => k))
  (at level 10, x name, m at level 100, k at level 200).

(** ** The Flux installer (flux.go) *)

Module FluxInstall.
Import OCM Run.

(** [fluxInstall] with its embedded [fluxOptions]; the Git client, the
    cluster clients and the Flux bootstrapper are the capabilities of
    [Sys]. *)
Record fluxInstall : Type := mkFluxInstall {
  componentName : string;
  version : string;
  repository : Repository;
  url : string;
  testURL : string;
  transport : string;
  branch : string;
  targetPath : string;
  namespace : string;
  token : string;
  dir : string;
  commitMessageAppendix : string;
  interval : Z;
  timeout : Z
}.

(** [time.Second], in nanoseconds. *)
Definition Second : Z := 1000000000.

Definition newline : string := String (ascii_of_nat 10) EmptyString.

Section WithSys.

Context {W : Type}.
Variable sv : Semver.Lib.
Variable sys : Sys W.

(** The loop of [cleanGitRepoDir]: every entry is removed, the failures
    are joined. *)
Fixpoint removeEntries (dirs : list string) (err : option error)
  : M W (option error) :=
  match dirs with
  | [] => ret err
  | d :: rest =>
      let path := filepath_Join sys (git_Path sys) d in
      let* er := callErr (OsRemoveAll path) (os_RemoveAll sys path) in
      match er with
      | Some e => removeEntries rest (errors_Join [err; Some e])
      | None => removeEntries rest err
      end
  end.

(** [cleanGitRepoDir] cleans the directory meant for the Git repo. *)
Definition cleanGitRepoDir : M W (option error) :=
  let* dirs := callRes (OsReadDir (git_Path sys)) (os_ReadDir sys (git_Path sys)) in
  match dirs with
  | Err er => ret (Some er)
  | Ok dirs => removeEntries dirs None
  end.

(** The loop of [retry], from counter [i]: [fuel] bounds the iterations
    left and is [retries - i] at every call, so it is positive whenever
    [i < retries]; a loop that outran it would show as a panic. *)
Fixpoint retryFrom (fuel : nat) (i retries : Z) (wait : Z)
    (fn : M W (option error)) : M W (option error) :=
  let* err := fn in
  match err with
  | None => ret None
  | Some e =>
      if (i >=? retries)%Z then ret (Some e)
      else
        match fuel with
        | O => panic "retry: out of fuel"
        | S fuel' =>
            let* _ := callVal (TimeSleep wait)
                        (fun w => (tt, time_Sleep sys wait w)) in
            retryFrom fuel' (i + 1)%Z retries wait fn
        end
  end.

Definition retry (retries : Z) (wait : Z) (fn : M W (option error))
  : M W (option error) :=
  retryFrom (Z.to_nat retries) 0%Z retries wait fn.

(** The closure [cloneRepository] hands to [retry]. *)
Definition cleanAndClone (f : fluxInstall) : M W (option error) :=
  let* err := cleanGitRepoDir in
  match err with
  | Some e =>
      ret (Some (fmt_Errorf "failed to clean git repository directory" e))
  | None =>
      callErr (GitClone (url f) (branch f)) (git_Clone sys (url f) (branch f))
  end.

Definition cloneRepository (f : fluxInstall) : M W (option error) :=
  let* herr := callErr GitHead (git_Head sys) in
  match herr with
  | None => ret None
  | Some err =>
      if negb (isErrNoGitRepository err) then ret (Some err)
      else
        let* err := retry 1 (2 * Second) (cleanAndClone f) in
        match err with
        | Some e => ret (Some (fmt_Errorf "failed to clone repository" e))
        | None => ret None
        end
  end.

Definition commitMessage (f : fluxInstall) : string :=
  let commitMsg := "Add Flux " ++ version f ++ " component manifests" in
  if negb (String.eqb (commitMessageAppendix f) "")
  then commitMsg ++ newline ++ newline ++ commitMessageAppendix f
  else commitMsg.

Definition commitAndPushComponents (f : fluxInstall) (path content : string)
  : M W (option error) :=
  let commitMsg := commitMessage f in
  let* err := callErr (GitCommit commitMsg path content)
                (git_Commit sys commitMsg path content) in
  match err with
  | Some e =>
      if negb (isErrNoStagedFiles e)
      then ret (Some (fmt_Errorf "failed to commit sync manifests" e))
      else ret None
  | None =>
      let* perr := callErr GitPush (git_Push sys) in
      match perr with
      | Some e => ret (Some (fmt_Errorf "failed to push manifests" e))
      | None => ret None
      end
  end.

Definition mustInstallManifests (f : fluxInstall) : M W bool :=
  callVal (KubeMustInstallKustomization (namespace f) (namespace f))
    (kube_MustInstallKustomization sys (namespace f) (namespace f)).

Definition applyFile (file : string) : M W (option error) :=
  let* err := callErr (KubeApply (git_Path sys) file)
                (kube_Apply sys (git_Path sys) file) in
  match err with
  | Some e => ret (Some (fmt_Errorf "failed to apply components" e))
  | None => ret None
  end.

Definition reconcileComponents (f : fluxInstall) (path content : string)
  : M W (option error) :=
  let* err := cloneRepository f in
  match err with
  | Some e => ret (Some (fmt_Errorf "failed to clone repository" e))
  | None =>
      let* err := commitAndPushComponents f path content in
      match err with
      | Some e =>
          ret (Some (fmt_Errorf "failed to commit and push components" e))
      | None =>
          let* must := mustInstallManifests f in
          if must : bool then
            let componentsYAML := filepath_Join sys (git_Path sys) path in
            let kfile := filepath_Join sys (filepath_Dir sys componentsYAML)
                           (DefaultKustomizationFileName sys) in
            let* serr := callErr (OsStat kfile) (os_Stat sys kfile) in
            match serr with
            | None => applyFile kfile
            | Some _ => applyFile componentsYAML
            end
          else ret None
      end
  end.

Definition typeMeta : Kustomization :=
  mkKustomization (KustomizationVersion sys) (KustomizationKind sys) [] [].

Definition generateKustomizationFile (path resource : string)
  : M W (result string) :=
  let kfile := filepath_Join sys path (DefaultKustomizationFileName sys) in
  let* err := callErr (OsCreate kfile) (os_Create sys kfile) in
  match err with
  | Some e => ret (Err e)
  | None =>
      let kus := mkKustomization (KustomizationVersion sys)
                   (KustomizationKind sys) [resource] [] in
      match yaml_Marshal sys kus with
      | Err e =>
          let* _ := callErr (OsRemove kfile) (os_Remove sys kfile) in
          ret (Err e)
      | Ok kd =>
          let* werr := callErr (OsWriteFile kfile kd) (os_WriteFile sys kfile kd) in
          match werr with
          | Some e => ret (Err e)
          | None => ret (Ok kfile)
          end
      end
  end.

Definition genKus (dir : string) (ocmConfig : bytes) (resourceName : string)
  : M W (result (string * Kustomization)) :=
  let* kfile := generateKustomizationFile dir resourceName in
  match kfile with
  | Err e => ret (Err e)
  | Ok kfile =>
      let* data := callRes (OsReadFile kfile) (os_ReadFile sys kfile) in
      match data with
      | Err e => ret (Err e)
      | Ok data =>
          match yaml_Unmarshal sys data typeMeta with
          | Err e => ret (Err e)
          | Ok kus => ret (Ok (kfile, kus))
          end
      end
  end.

Definition generateKustomization (f : fluxInstall) (fluxResource ocmConfig : bytes)
  : M W (result (string * Kustomization)) :=
  let file := filepath_Join sys (dir f) "gotk-components.yaml" in
  let* err := callErr (OsWriteFile file fluxResource)
                (os_WriteFile sys file fluxResource) in
  match err with
  | Some e => ret (Err e)
  | None => genKus (dir f) ocmConfig "./gotk-components.yaml"
  end.

(** [buildKustomization]: the lock is taken before the build and released,
    by the deferred [Unlock], on every way out after it. *)
Definition buildKustomization (kus : Kustomization) (kfile dir : string)
  : M W (result bytes) :=
  match yaml_Marshal sys kus with
  | Err e => ret (Err e)
  | Ok manifest =>
      let* err := callErr (OsWriteFile kfile manifest)
                    (os_WriteFile sys kfile manifest) in
      match err with
      | Some e => ret (Err e)
      | None =>
          let* _ := mark MuLock in
          let* m := callRes (KustomizeBuild dir) (kustomize_Build sys dir) in
          match m with
          | Err e =>
              let* _ := mark MuUnlock in
              ret (Err (fmt_Errorf "kustomize build failed" e))
          | Ok m =>
              match AsYaml m with
              | Err e =>
                  let* _ := mark MuUnlock in
                  ret (Err (fmt_Errorf "kustomize build failed" e))
              | Ok res =>
                  let* _ := mark MuUnlock in
                  ret (Ok res)
              end
          end
      end
  end.

Definition generateGOTKComponent (f : fluxInstall) (kconfig : ConfigData)
    (imagesResources : gmap string nameTag) (kus : Kustomization)
    (kfile : string) : M W (result bytes) :=
  buildKustomization
    (Flux.localizeImages (DefaultFluxHost sys) kconfig imagesResources kus)
    kfile (dir f).

Definition unMarshallConfig (data : bytes) : result ConfigData :=
  match decodeConfigData sys data with
  | Err e => Err (fmt_Errorf "failed to decode config data" e)
  | Ok k => Ok k
  end.

(** [string(res)]: the conversion of a byte slice, nil or not. *)
Definition stringOfBytes (b : bytes) : string :=
  string_of_list_byte (default [] b).

(** [b == nil] for a byte slice. *)
Definition isNil (b : bytes) : bool :=
  match b with None => true | Some _ => false end.

(** The health phase that ends [Install]: the two reports, one after the
    other, each failure joined to [healthErr]. *)
Definition reportHealth (f : fluxInstall) (syncOpts : SyncOptions)
    (components : list string) : M W (option error) :=
  let healthErr : option error := None in
  let* err := callErr
                (ReportKustomizationHealth syncOpts (DefaultPollInterval sys) (timeout f))
                (flux_ReportKustomizationHealth sys syncOpts
                   (DefaultPollInterval sys) (timeout f)) in
  let healthErr :=
    match err with
    | Some e => errors_Join [healthErr; Some e]
    | None => healthErr
    end in
  let installOpts := mkInstallOptions (namespace f) components in
  let* err := callErr (ReportComponentsHealth installOpts (timeout f))
                (flux_ReportComponentsHealth sys installOpts (timeout f)) in
  let healthErr :=
    match err with
    | Some e => errors_Join [healthErr; Some e]
    | None => healthErr
    end in
  match healthErr with
  | Some e =>
      ret (Some (fmt_Errorf "failed to report health, please try again later" e))
  | None => ret None
  end.

Definition secretOptions (f : fluxInstall) : SecretOptions :=
  mkSecretOptions (namespace f) (namespace f) (targetPath f)
    (SecretManifestFile sys) "git" (token f).

Definition syncOptions (f : fluxInstall) : SyncOptions :=
  let o := mkSyncOptions (interval f) (namespace f) (namespace f) (url f)
             (branch f) (secretName (secretOptions f)) (targetPath f)
             (SyncManifestFile sys) false in
  if negb (String.eqb (testURL f) "")
  then mkSyncOptions (syncInterval o) (syncName o) (syncNamespace o) (testURL f)
         (syncBranch o) (syncSecret o) (syncTargetPath o) (syncManifestFile o)
         (syncRecurseSubmodules o)
  else o.

Definition Install (f : fluxInstall) (component : string) : M W (option error) :=
  match Flux.getComponentVersion sv (repository f) (componentName f) (version f) with
  | Err err => ret (Some (fmt_Errorf "failed to get component version" err))
  | Ok cv =>
  let* got := liftOutcome (Flux.getResources (AutoDecompress sys) cv component) in
  match got with
  | Err err => ret (Some (fmt_Errorf "failed to get resources" err))
  | Ok resources =>
  let components := compomentsList resources in
  if isNil (componentResource resources) || isNil (ocmConfig resources)
  then ret (Some (errors_New "flux or ocm-config resource not found"))
  else
  let* gen := generateKustomization f (componentResource resources)
                (ocmConfig resources) in
  match gen with
  | Err err => ret (Some err)
  | Ok (kfile, kus) =>
  match unMarshallConfig (ocmConfig resources) with
  | Err err => ret (Some err)
  | Ok kconfig =>
  let* res := generateGOTKComponent f kconfig (imagesResources resources)
                kus kfile in
  match res with
  | Err err => ret (Some err)
  | Ok res =>
  let* err := reconcileComponents f
                (targetPath f ++ "/" ++ namespace f ++ "/" ++ "gotk-components.yaml")
                (stringOfBytes res) in
  match err with
  | Some e => ret (Some (fmt_Errorf "failed to reconcile components" e))
  | None =>
  let secretOpts := secretOptions f in
  let* err := callErr (ReconcileSourceSecret secretOpts)
                (flux_ReconcileSourceSecret sys secretOpts) in
  match err with
  | Some e => ret (Some e)
  | None =>
  let syncOpts := syncOptions f in
  let* err := callErr (ReconcileSyncConfig syncOpts)
                (flux_ReconcileSyncConfig sys syncOpts) in
  match err with
  | Some e => ret (Some (fmt_Errorf "failed to reconcile sync config" e))
  | None => reportHealth f syncOpts components
  end end end end end end end end.

End WithSys.

End FluxInstall.

(** ** A reference instance of the semantic-version interface

    Plain release versions only: an optional [v], then one to three numeric
    segments separated by dots; a constraint is one such pattern in which a
    segment may be the wildcard [x], [X] or [*], and a missing segment is a
    wildcard.  The general results below hold for every instance of
    [Semver.Lib]; this one runs the examples. *)

Module SemverRef.

Record Version : Type := mkVersion {
  major : N;
  minor : N;
  patch : N;
  original : string
}.

Record Constraints : Type := mkConstraints {
  wantMajor : option N;
  wantMinor : option N;
  wantPatch : option N
}.

Definition digit (c : ascii) : option N :=
  let n := N_of_ascii c in
  if (48 <=? n)%N && (n <=? 57)%N then Some (n - 48)%N else None.

Fixpoint digits (acc : N) (s : string) : option N :=
  match s with
  | EmptyString => Some acc
  | String c rest =>
      match digit c with
      | Some d => digits (10 * acc + d)%N rest
      | None => None
      end
  end.

Definition number (s : string) : option N :=
  match s with
  | EmptyString => None
  | _ => digits 0%N s
  end.

Definition stripV (s : string) : string :=
  match s with
  | String "v" rest => rest
  | _ => s
  end.

Definition ErrInvalidSemVer : error := errorString "Invalid Semantic Version".

Definition NewVersion (s : string) : result Version :=
  match GoStrings.Split (stripV s) "." with
  | [a] =>
      match number a with
      | Some x => Ok (mkVersion x 0 0 s)
      | None => Err ErrInvalidSemVer
      end
  | [a; b] =>
      match number a, number b with
      | Some x, Some y => Ok (mkVersion x y 0 s)
      | _, _ => Err ErrInvalidSemVer
      end
  | [a; b; c] =>
      match number a, number b, number c with
      | Some x, Some y, Some z => Ok (mkVersion x y z s)
      | _, _, _ => Err ErrInvalidSemVer
      end
  | _ => Err ErrInvalidSemVer
  end.

Definition isWildcard (s : string) : bool :=
  String.eqb s "x" || String.eqb s "X" || String.eqb s "*".

(** A segment of a constraint: [Some None] is the wildcard. *)
Definition segment (s : string) : option (option N) :=
  if isWildcard s then Some None
  else match number s with
       | Some n => Some (Some n)
       | None => None
       end.

Definition improper (s : string) : error :=
  errorString ("improper constraint: " ++ s).

Definition NewConstraint (s : string) : result Constraints :=
  match GoStrings.Split (stripV s) "." with
  | [a] =>
      match segment a with
      | Some x => Ok (mkConstraints x None None)
      | None => Err (improper s)
      end
  | [a; b] =>
      match segment a, segment b with
      | Some x, Some y => Ok (mkConstraints x y None)
      | _, _ => Err (improper s)
      end
  | [a; b; c] =>
      match segment a, segment b, segment c with
      | Some x, Some y, Some z => Ok (mkConstraints x y z)
      | _, _, _ => Err (improper s)
      end
  | _ => Err (improper s)
  end.

Definition segmentOk (want : option N) (have : N) : bool :=
  match want with
  | None => true
  | Some n => N.eqb n have
  end.

Definition Check (c : Constraints) (v : Version) : bool :=
  segmentOk (wantMajor c) (major v)
  && segmentOk (wantMinor c) (minor v)
  && segmentOk (wantPatch c) (patch v).

Definition lib : Semver.Lib :=
  Semver.mkLib Version Constraints NewVersion NewConstraint Check original.

End SemverRef.

(** ** A scripted world

    A test double for the collaborators: the world is the queue of answers
    the fallible calls will get, one per call, [None] (success) once the
    queue is empty.  Directory listings, file contents and rendered manifests
    are fixed. *)

Module Scripted.
Import OCM Run.

Definition World : Type := list (option error).

Definition answer (w : World) : option error * World :=
  match w with
  | [] => (None, [])
  | a :: rest => (a, rest)
  end.

Definition answerWith {A} (a : A) (w : World) : result A * World :=
  match answer w with
  | (Some e, w') => (Err e, w')
  | (None, w') => (Ok a, w')
  end.

Definition decode (data : bytes) : result ConfigData :=
  match data with
  | Some (_ :: _) => Ok (mkConfigData [])
  | _ => Err (errorString "EOF")
  end.

Definition sys : Sys World :=
  {| git_Head := answer;
     git_Clone := fun _ _ => answer;
     git_Commit := fun _ _ _ => answer;
     git_Push := answer;
     git_Path := "/tmp/flux-install";
     os_ReadDir := fun _ => answerWith [".git"; "README.md"];
     os_RemoveAll := fun _ => answer;
     os_WriteFile := fun _ _ => answer;
     os_Create := fun _ => answer;
     os_ReadFile := fun _ => answerWith (Some []);
     os_Remove := fun _ => answer;
     os_Stat := fun _ => answer;
     time_Sleep := fun _ w => w;
     kustomize_Build := fun _ => answerWith (mkResMap (Ok (Some [])));
     kube_MustInstallKustomization := fun _ _ w => (false, w);
     kube_Apply := fun _ _ => answer;
     flux_ReconcileSourceSecret := fun _ => answer;
     flux_ReconcileSyncConfig := fun _ => answer;
     flux_ReportKustomizationHealth := fun _ _ _ => answer;
     flux_ReportComponentsHealth := fun _ _ => answer;
     yaml_Marshal := fun _ => Ok (Some []);
     yaml_Unmarshal := fun _ kus => Ok kus;
     decodeConfigData := decode;
     AutoDecompress := fun r => Ok (r, false);
     filepath_Join := fun a b => a ++ "/" ++ b;
     filepath_Dir := fun p => p;
     DefaultKustomizationFileName := "kustomization.yaml";
     KustomizationVersion := "kustomize.config.k8s.io/v1beta1";
     KustomizationKind := "Kustomization";
     SecretManifestFile := "flux-source-secret.yaml";
     SyncManifestFile := "gotk-sync.yaml";
     DefaultFluxHost := "ghcr.io/fluxcd";
     DefaultPollInterval := 2 * FluxInstall.Second |}.

Definition start (w : World) : State World := mkState w [].

(** A resource whose content is [data]. *)
Definition fileResource (name : string) (data : list Byte.byte) : ResourceAccess :=
  mkResource name "file" (Ok (OtherAccessSpec "localBlob"))
    (Ok (mkAccessMethod (Ok (mkReadCloser data None)))).

(** An image resource with the given access. *)
Definition imageResource (name : string) (access : result AccessSpec)
  : ResourceAccess :=
  mkResource name "ociImage" access (Err (errorString "no blob")).

(** A repository with one component, [flux], listing [vnames]; every listed
    version holds the resources [res]. *)
Definition component (vnames : list string) (res : list ResourceAccess)
  : ComponentAccess :=
  mkComponent (Ok vnames)
    (fun v => if existsb (String.eqb v) vnames
              then Ok (mkComponentVersion v res)
              else Err (errorString "version not found")).

Definition repo (vnames : list string) (res : list ResourceAccess) : Repository :=
  mkRepository (fun name =>
    if String.eqb name "flux"
    then Ok (component vnames res)
    else Err (errorString "component not found")).

Definition installer (vnames : list string) (res : list ResourceAccess)
  : FluxInstall.fluxInstall :=
  FluxInstall.mkFluxInstall "flux" "v0.1.x" (repo vnames res)
    "https://example.org/mgmt.git" "" "https" "main" "clusters" "flux-system"
    "secret" "/tmp/flux-install" "" (60 * FluxInstall.Second)
    (300 * FluxInstall.Second).

End Scripted.

(** ** Joining strings *)

Module GoStringsExt.

(** [strings.Join(elems, sep)]. *)
Fixpoint Join (elems : list string) (sep : string) : string :=
  match elems with
  | [] => ""
  | [a] => a
  | a :: rest => a ++ sep ++ Join rest sep
  end.

End GoStringsExt.

(** ** The management repository (bootstrap.go) *)

Module Management.

Record UserRef : Type := mkUserRef {
  Domain : string;
  UserLogin : string
}.

Record UserRepositoryRef : Type := mkUserRepositoryRef {
  UserRefOf : UserRef;
  UserRepositoryName : string
}.

Record OrganizationRef : Type := mkOrganizationRef {
  OrgDomain : string;
  Organization : string;
  SubOrganizations : list string
}.

Record OrgRepositoryRef : Type := mkOrgRepositoryRef {
  OrganizationRefOf : OrganizationRef;
  OrgRepositoryName : string
}.

(** [gitprovider.RepositoryInfo]: a field that is not set is a nil pointer. *)
Record RepositoryInfo : Type := mkRepositoryInfo {
  InfoDescription : option string;
  InfoDefaultBranch : option string;
  InfoVisibility : option string
}.

(** A repository handle: [CloneableURL] is its [GetCloneURL(prefix,
    transport)] when it implements [gitprovider.CloneableURL];
    [RepositoryCloneURL] is [Repository().GetCloneURL(transport)]. *)
Record UserRepository : Type := mkUserRepository {
  CloneableURL : option (string -> string -> string);
  RepositoryCloneURL : string -> string
}.

(** [splitSubOrganizationsFromRepositoryName]: the elements between slashes,
    the last one being the repository name.  A nil slice of sub-organizations
    is the empty list; the slice of the default case is never empty.  An
    empty [elements] would make [elements[:i-1]] panic. *)
Definition splitSubOrganizationsFromRepositoryName (name : string)
  : outcome (list string * string) :=
  let elements := GoStrings.Split name "/" in
  match length elements with
  | 1 => Returns ([], name)
  | O => Panics "slice bounds out of range [:-1]"
  | i =>
      match elements !! (i - 1) with
      | Some last => Returns (take (i - 1) elements, last)
      | None => Panics "index out of range"
      end
  end.

Definition newOrgRepositoryRef (organizationRef : OrganizationRef) (name : string)
  : OrgRepositoryRef :=
  mkOrgRepositoryRef organizationRef name.

Definition newUserRef (domain login : string) : UserRef :=
  mkUserRef domain login.

Definition newUserRepositoryRef (userRef : UserRef) (name : string)
  : UserRepositoryRef :=
  mkUserRepositoryRef userRef name.

Definition setIfNotEmpty (v : string) : option string :=
  if negb (String.eqb v "") then Some v else None.

(** [newRepositoryInfo]: each field is set when its value is not empty. *)
Definition newRepositoryInfo (description defaultBranch visibility : string)
  : RepositoryInfo :=
  mkRepositoryInfo (setIfNotEmpty description) (setIfNotEmpty defaultBranch)
    (setIfNotEmpty visibility).

Section Provider.

(** The Git provider client, over the state [P] of the hosting service.
    [IsNotFound] is [errors.Is(err, gitprovider.ErrNotFound)],
    [IsReconciledWithWarning] is [errors.Is(err, errReconciledWithWarning)];
    [Quote] is the [%q] verb. *)
Context {P : Type}.

Record Client : Type := mkClient {
  SupportedDomain : string;
  user_Get : UserRepositoryRef -> P -> result UserRepository * P;
  user_Reconcile : UserRepositoryRef -> RepositoryInfo -> P
                   -> result UserRepository * P;
  org_Get : OrgRepositoryRef -> P -> result UserRepository * P;
  org_Reconcile : OrgRepositoryRef -> RepositoryInfo -> P
                  -> result UserRepository * P;
  repo_Delete : UserRepository -> P -> option error * P;
  IsNotFound : error -> bool;
  IsReconciledWithWarning : error -> bool;
  userRefString : UserRepositoryRef -> string;
  orgRefString : OrgRepositoryRef -> string;
  Quote : string -> string;
  TransportTypeSSH : string
}.

Context {KubeClient RESTClientGetter Printer ProviderClient : Type}.

Abbreviation options := (@Bootstrap.options KubeClient RESTClientGetter Printer).
Abbreviation BootstrapT :=
  (@Bootstrap.BootstrapT KubeClient RESTClientGetter Printer ProviderClient
     UserRepository).

Variable client : Client.

Definition getOrganization (b : BootstrapT) (subOrgs : list string)
  : result OrganizationRef :=
  Ok (mkOrganizationRef (SupportedDomain client)
        (Bootstrap.owner (Bootstrap.opts b)) subOrgs).

(** [reconcileRepository]: the repository is looked up, and reconciled only
    when the lookup reports that it was not found. *)
Definition reconcileRepository (b : BootstrapT) (personal : bool) (p : P)
  : outcome (result UserRepository) * P :=
  let o := Bootstrap.opts b in
  match splitSubOrganizationsFromRepositoryName (Bootstrap.repositoryName o) with
  | Panics msg => (Panics msg, p)
  | Returns (subOrgs, repoName) =>
      if personal then
        let userRef := newUserRef (SupportedDomain client) (Bootstrap.owner o) in
        let repoRef := newUserRepositoryRef userRef repoName in
        let repoInfo := newRepositoryInfo (Bootstrap.description o)
                          (Bootstrap.defaultBranch o) (Bootstrap.visibility o) in
        match user_Get client repoRef p with
        | (Ok repo, p1) => (Returns (Ok repo), p1)
        | (Err err, p1) =>
            if negb (IsNotFound client err) then
              (Returns
                 (Err (fmt_Errorf
                         ("failed to get Git repository "
                          ++ Quote client (userRefString client repoRef))
                         err)),
               p1)
            else
              match user_Reconcile client repoRef repoInfo p1 with
              | (Ok repo, p2) => (Returns (Ok repo), p2)
              | (Err err, p2) =>
                  (Returns
                     (Err (fmt_Errorf
                             ("failed to reconcile Git repository "
                              ++ Quote client (userRefString client repoRef))
                             err)),
                   p2)
              end
        end
      else
        match getOrganization b subOrgs with
        | Err err =>
            (Returns
               (Err (fmt_Errorf
                       ("failed to reconcile Git repository "
                        ++ Quote client (Bootstrap.repositoryName o))
                       err)),
             p)
        | Ok orgRef =>
            let repoRef := newOrgRepositoryRef orgRef repoName in
            let repoInfo := newRepositoryInfo (Bootstrap.description o)
                              (Bootstrap.defaultBranch o) (Bootstrap.visibility o) in
            match org_Get client repoRef p with
            | (Ok repo, p1) => (Returns (Ok repo), p1)
            | (Err err, p1) =>
                if negb (IsNotFound client err) then
                  (Returns
                     (Err (fmt_Errorf
                             ("failed to get Git repository "
                              ++ Quote client (orgRefString client repoRef))
                             err)),
                   p1)
                else
                  match org_Reconcile client repoRef repoInfo p1 with
                  | (Ok repo, p2) => (Returns (Ok repo), p2)
                  | (Err err, p2) =>
                      (Returns
                         (Err (fmt_Errorf
                                 ("failed to create new Git repository "
                                  ++ Quote client (orgRefString client repoRef))
                                 err)),
                       p2)
                  end
            end
        end
  end.

(** [getCloneURL]: the URL is computed first, and refused afterwards when the
    transport is SSH. *)
Definition getCloneURL (repository : UserRepository) (transport : string)
  : result string :=
  let url :=
    match CloneableURL repository with
    | Some getCloneURL => getCloneURL "" transport
    | None => RepositoryCloneURL repository transport
    end in
  if String.eqb transport (TransportTypeSSH client)
  then Err (errors_New "SSH transport is not supported")
  else Ok url.

Definition setRepository (b : BootstrapT) (repo : UserRepository) (cloneURL : string)
  : BootstrapT :=
  Bootstrap.mkBootstrap (Bootstrap.ProviderClientOf b) (Some repo) cloneURL
    (Bootstrap.opts b).

(** [reconcileManagementRepository]: the error and the Bootstrap it leaves.
    An error that is a reconciled-with-warning goes on with the nil
    repository, on which [Repository()] cannot be called. *)
Definition reconcileManagementRepository (b : BootstrapT) (p : P)
  : outcome (option error * BootstrapT) * P :=
  match reconcileRepository b (Bootstrap.personal (Bootstrap.opts b)) p with
  | (Panics msg, p') => (Panics msg, p')
  | (Returns (Err err), p') =>
      if negb (IsReconciledWithWarning client err)
      then (Returns (Some err, b), p')
      else (Panics "invalid memory address or nil pointer dereference", p')
  | (Returns (Ok repo), p') =>
      match getCloneURL repo (Bootstrap.transportType (Bootstrap.opts b)) with
      | Err err => (Returns (Some err, b), p')
      | Ok cloneURL => (Returns (None, setRepository b repo cloneURL), p')
      end
  end.

Definition DeleteManagementRepository (b : BootstrapT) (p : P) : option error * P :=
  match Bootstrap.repository b with
  | None => (Some (errors_New "management repository is not set"), p)
  | Some repo =>
      match repo_Delete client repo p with
      | (Some err, p') =>
          (Some (fmt_Errorf "failed to delete management repository" err), p')
      | (None, p') => (None, p')
      end
  end.

End Provider.

Arguments Client P : clear implicits.

End Management.

(** ** The provider registry (provider.go) *)

Module GitProviders.

Record ProviderOptions : Type := mkProviderOptions {
  Provider : string;
  Hostname : string;
  Token : string;
  Username : string;
  DestructiveActions : bool
}.

(** The [gitprovider.ClientOption]s the GitHub factory builds. *)
Inductive ClientOption : Type :=
| WithOAuth2Token (token : string)
| WithDestructiveAPICalls (destructive : bool)
| WithDomain (domain : string).

Definition ProviderGithub : string := "github".

Section Registry.

Context {Client : Type}.

(** [github.NewClient]. *)
Variable github_NewClient : list ClientOption -> result Client.

(** [factoryFunc] creates a client; [providerMap] maps provider names to
    factories. *)
Definition factoryFunc : Type := ProviderOptions -> result Client.

(** [register] registers a new provider. *)
Definition register (m : gmap string factoryFunc) (name : string)
    (provider : factoryFunc) : gmap string factoryFunc :=
  <[name := provider]> m.

(** [githubProviderFunc] returns a client for GitHub. *)
Definition githubProviderFunc : factoryFunc := fun opts =>
  let o := [WithOAuth2Token (Token opts);
            WithDestructiveAPICalls (DestructiveActions opts)] in
  let o := if negb (String.eqb (Hostname opts) "")
           then (o ++ [WithDomain (Hostname opts)])%list
           else o in
  match github_NewClient o with
  | Err err => Err err
  | Ok client => Ok client
  end.

(** The registry [init] leaves. *)
Definition providers : gmap string factoryFunc :=
  register ∅ ProviderGithub githubProviderFunc.

(** [Build] returns a client from the factory registered under the provider
    name. *)
Definition Build (m : gmap string factoryFunc) (opts : ProviderOptions)
  : result Client :=
  match m !! Provider opts with
  | Some factory => factory opts
  | None => Err (errors_New ("provider " ++ Provider opts ++ " not supported"))
  end.

End Registry.

End GitProviders.

(** ** A scripted hosting service

    A test double for the Git provider: the state is the list of the names
    of the repositories that exist; a lookup finds a repository by name, a
    reconciliation creates it. *)

Module ScriptedProvider.
Import Management.

Definition Hosting : Type := list string.

Definition notFound : error := errorString "not found".

Definition handle (name : string) : UserRepository :=
  mkUserRepository None (fun transport => transport ++ "://example.org/" ++ name).

Definition lookup (name : string) (p : Hosting) : result UserRepository * Hosting :=
  if existsb (String.eqb name) p then (Ok (handle name), p) else (Err notFound, p).

Definition create (name : string) (p : Hosting) : result UserRepository * Hosting :=
  (Ok (handle name), name :: p).

Definition isNotFound (e : error) : bool :=
  match e with
  | errorString msg => String.eqb msg "not found"
  | _ => false
  end.

Definition client : Client Hosting :=
  {| SupportedDomain := "example.org";
     user_Get := fun ref => lookup (UserRepositoryName ref);
     user_Reconcile := fun ref _ => create (UserRepositoryName ref);
     org_Get := fun ref => lookup (OrgRepositoryName ref);
     org_Reconcile := fun ref _ => create (OrgRepositoryName ref);
     repo_Delete := fun _ p => (None, []);
     IsNotFound := isNotFound;
     IsReconciledWithWarning := fun _ => false;
     userRefString := fun ref => UserRepositoryName ref;
     orgRefString := fun ref => OrgRepositoryName ref;
     Quote := fun s => s;
     TransportTypeSSH := "ssh" |}.

(** A Bootstrap as [New] makes it for a repository name and a transport. *)
Definition bootstrap (repositoryName transport : string)
  : @Bootstrap.BootstrapT unit unit unit unit UserRepository :=
  Bootstrap.New None
    [Bootstrap.WithOwner "acme"; Bootstrap.WithRepositoryName repositoryName;
     Bootstrap.WithTransportType transport].

End ScriptedProvider.

(** * Vocabulary of the statements *)

Section ResolveVocabulary.
Import OCM.

Variable sv : Semver.Lib.

(** A listed name satisfies the constraint when it parses and the parsed
    version passes the check. *)
Definition satisfies (constraint : Semver.Constraints sv) (vname : string) : bool :=
  match Semver.NewVersion sv vname with
  | Ok v => Semver.Check sv constraint v
  | Err _ => false
  end.

Definition parses (vname : string) : bool :=
  match Semver.NewVersion sv vname with
  | Ok _ => true
  | Err _ => false
  end.

(** Resolution as the specification words it: the first listed name, in
    listing order, that satisfies the constraint, and no matching version
    when there is none. *)
Definition specResolve (repository : Repository) (componentName version : string)
  : result ComponentVersionAccess :=
  match LookupComponent repository componentName with
  | Err err => Err err
  | Ok c =>
      match ListVersions c with
      | Err err => Err err
      | Ok vnames =>
          match Semver.NewConstraint sv version with
          | Err err => Err err
          | Ok constraint =>
              match find (satisfies constraint) vnames with
              | Some vname => LookupVersion c vname
              | None => Err (errors_New "no matching version found")
              end
          end
      end
  end.

(** Every name before the first that satisfies the constraint parses; when
    none satisfies it, every name parses. *)
Fixpoint parsesUntilMatch (constraint : Semver.Constraints sv)
    (vnames : list string) : bool :=
  match vnames with
  | [] => true
  | vname :: rest =>
      parses vname
      && (satisfies constraint vname || parsesUntilMatch constraint rest)
  end.

End ResolveVocabulary.

Arguments satisfies {sv} constraint vname.
Arguments parsesUntilMatch {sv} constraint vnames.

Section TraceVocabulary.
Import Run.

Context {W : Type}.

(** [s'] continues [s] with events that all pass [P]. *)
Definition extends (P : Op -> bool) (s s' : State W) : Prop :=
  exists evs,
    trace s' = (trace s ++ evs)%list
    /\ Forall (fun e => P (evOp e) = true) evs.

(** A computation that only makes calls passing [P]. *)
Definition emits {A} (P : Op -> bool) (m : M W A) : Prop :=
  forall s, extends P s (snd (m s)).

(** The calls made before the health phase. *)
Definition beforeHealth (op : Op) : bool :=
  negb (isKustomizationHealth op || isComponentsHealth op).

End TraceVocabulary.

Section InstallVocabulary.
Import Run.

Context {W : Type}.
Variable sys : Sys W.

(** The image override a rule produces: the coordinate found under the
    rule's resource name, or empty replacement name and tag. *)
Definition overrideOf (images : gmap string nameTag) (loc : LocalizationRule)
  : Image :=
  mkImage (DefaultFluxHost sys ++ "/" ++ Resource_Name loc)
    (match images !! Resource_Name loc with
     | Some coordinate => Name coordinate
     | None => ""
     end)
    (match images !! Resource_Name loc with
     | Some coordinate => Tag coordinate
     | None => ""
     end).

(** The removals of the listed entries, each with its result. *)
Definition removalEvents (dirs : list string) (rms : list (option error))
  : list Event :=
  zip_with
    (fun d r => mkEvent (OsRemoveAll (filepath_Join sys (git_Path sys) d)) r)
    dirs rms.

Definition isNone (r : option error) : bool :=
  match r with None => true | Some _ => false end.

(** The state after [time.Sleep(wait)]. *)
Definition slept (wait : Z) (s : State W) : State W :=
  mkState (time_Sleep sys wait (world s))
    (trace s ++ [mkEvent (TimeSleep wait) None])%list.

(** One run of the closure handed to [retry]: the directory is listed,
    [os.RemoveAll] is called on every listed entry, and the clone is
    attempted only after all of them succeeded; a failure to list or to
    remove is returned without a clone attempt. *)
Definition attempt (f : FluxInstall.fluxInstall) (s : State W)
    (r : option error) (s' : State W) : Prop :=
  FluxInstall.cleanAndClone sys f s = (Returns r, s')
  /\ exists evs,
       trace s' = (trace s ++ evs)%list
       /\ countOps isClone evs <= 1
       /\ countOps isSleep evs = 0
       /\ match fst (os_ReadDir sys (git_Path sys) (world s)) with
          | Err e =>
              evs = [mkEvent (OsReadDir (git_Path sys)) (Some e)]
              /\ r = Some (fmt_Errorf "failed to clean git repository directory" e)
          | Ok dirs =>
              exists rms,
                length rms = length dirs
                /\ if forallb isNone rms
                   then evs = (mkEvent (OsReadDir (git_Path sys)) None
                               :: removalEvents dirs rms
                               ++ [mkEvent
                                     (GitClone (FluxInstall.url f) (FluxInstall.branch f))
                                     r])%list
                   else evs = (mkEvent (OsReadDir (git_Path sys)) None
                               :: removalEvents dirs rms)%list
                        /\ exists e,
                             r = Some (fmt_Errorf
                                         "failed to clean git repository directory" e)
          end.

End InstallVocabulary.

Section FootprintVocabulary.
Import OCM Run.

Context {W : Type}.

(** A resource of the third kind of [getResources]: an image, named neither
    like the component nor like the config document. *)
Definition isImageResource (componentName : string) (x : ResourceAccess) : bool :=
  negb (String.eqb (Meta_Name x) componentName)
  && negb (String.eqb (Meta_Name x) "ocm-config")
  && String.eqb (Meta_Type x) "ociImage".

Definition isLock (o : Op) : bool :=
  match o with MuLock => true | _ => false end.

Definition isUnlock (o : Op) : bool :=
  match o with MuUnlock => true | _ => false end.

Definition isBuild (o : Op) : bool :=
  match o with KustomizeBuild _ => true | _ => false end.

Definition isApply (o : Op) : bool :=
  match o with KubeApply _ _ => true | _ => false end.

Definition isMustInstall (o : Op) : bool :=
  match o with KubeMustInstallKustomization _ _ => true | _ => false end.

(** The calls of manifest generation: files of the work directory, the lock
    and the templating build. *)
Definition generationOp (o : Op) : bool :=
  match o with
  | OsWriteFile _ _ | OsCreate _ | OsReadFile _ | OsRemove _
  | MuLock | MuUnlock | KustomizeBuild _ => true
  | _ => false
  end.

(** The calls of [cloneRepository]. *)
Definition cloneOp (o : Op) : bool :=
  match o with
  | GitHead | GitClone _ _ | OsReadDir _ | OsRemoveAll _ | TimeSleep _ => true
  | _ => false
  end.

(** The calls of [commitAndPushComponents]. *)
Definition commitOp (o : Op) : bool :=
  match o with
  | GitCommit _ _ _ | GitPush => true
  | _ => false
  end.

(** The calls that apply manifests to the cluster. *)
Definition applyOp (o : Op) : bool :=
  match o with
  | KubeMustInstallKustomization _ _ | OsStat _ | KubeApply _ _ => true
  | _ => false
  end.

(** A computation that returns from every state, with calls that all pass
    [P]. *)
Definition returnsWith {A} (P : Op -> bool) (m : M W A) : Prop :=
  forall s, exists a s', m s = (Returns a, s') /\ extends P s s'.

End FootprintVocabulary.

(** * Properties *)

(** ** Strings *)

Section StringFacts.

Lemma append_cons (c : ascii) (a b : string) :
  (String c a ++ b)%string = String c (a ++ b).
Proof. reflexivity. Qed.

Lemma append_nil (b : string) : ("" ++ b)%string = b.
Proof. reflexivity. Qed.

Lemma string_length_app (s t : string) :
  String.length (s ++ t) = String.length s + String.length t.
Proof.
  induction s as [|c s IH]; rewrite ?append_cons, ?append_nil; simpl;
    [reflexivity | now rewrite IH].
Qed.

Lemma substring_prefix (s t : string) :
  substring 0 (String.length s) (s ++ t) = s.
Proof.
  induction s as [|c s IH]; rewrite ?append_cons, ?append_nil; simpl.
  - destruct t; reflexivity.
  - now rewrite IH.
Qed.

Lemma substring_all (t : string) : substring 0 (String.length t) t = t.
Proof. induction t as [|c t IH]; simpl; [reflexivity | now rewrite IH]. Qed.

Lemma substring_suffix (s t : string) :
  substring (String.length s) (String.length t) (s ++ t) = t.
Proof.
  induction s as [|c s IH]; rewrite ?append_cons, ?append_nil; simpl;
    [apply substring_all | exact IH].
Qed.

Lemma substring_split (n : nat) (s : string) :
  n <= String.length s ->
  s = (substring 0 n s ++ substring n (String.length s - n) s)%string.
Proof.
  revert s. induction n as [|n IH]; intros s Hn.
  - simpl. rewrite Nat.sub_0_r, substring_all. destruct s; reflexivity.
  - destruct s as [|c s]; simpl in *; [lia |].
    rewrite append_cons. f_equal. apply IH. lia.
Qed.

(** [HasSuffix] holds exactly of the strings that end with the suffix. *)
Lemma HasSuffix_iff (s suffix : string) :
  GoStrings.HasSuffix s suffix = true <-> exists t, s = (t ++ suffix)%string.
Proof.
  unfold GoStrings.HasSuffix. rewrite andb_true_iff, Nat.leb_le, String.eqb_eq.
  split.
  - intros [Hle Heq].
    exists (substring 0 (String.length s - String.length suffix) s).
    pose proof (substring_split (String.length s - String.length suffix) s
                  ltac:(lia)) as Hs.
    replace (String.length s - (String.length s - String.length suffix))
      with (String.length suffix) in Hs by lia.
    rewrite Heq in Hs. exact Hs.
  - intros [t ->]. rewrite string_length_app. split; [lia |].
    replace (String.length t + String.length suffix - String.length suffix)
      with (String.length t) by lia.
    apply substring_suffix.
Qed.

Lemma TrimSuffix_app (t suffix : string) :
  GoStrings.TrimSuffix (t ++ suffix) suffix = t.
Proof.
  unfold GoStrings.TrimSuffix.
  assert (H : GoStrings.HasSuffix (t ++ suffix) suffix = true)
    by (apply HasSuffix_iff; eauto).
  rewrite H, string_length_app.
  replace (String.length t + String.length suffix - String.length suffix)
    with (String.length t) by lia.
  apply substring_prefix.
Qed.

Lemma TrimSuffix_without (s suffix : string) :
  GoStrings.HasSuffix s suffix = false -> GoStrings.TrimSuffix s suffix = s.
Proof. unfold GoStrings.TrimSuffix. now intros ->. Qed.

Lemma string_app_assoc (a b c : string) : ((a ++ b) ++ c = a ++ (b ++ c))%string.
Proof.
  induction a as [|x a IH]; rewrite ?append_cons, ?append_nil;
    [reflexivity | now rewrite IH].
Qed.

Lemma string_app_nil_r (a : string) : (a ++ "")%string = a.
Proof.
  induction a as [|x a IH]; rewrite ?append_cons, ?append_nil;
    [reflexivity | now rewrite IH].
Qed.

(** A string without the separator is one segment. *)
Lemma splitOn_none (sep : ascii) (s cur : string) :
  GoStrings.Count s sep = 0 ->
  GoStrings.splitOn sep cur s = [(cur ++ s)%string].
Proof.
  revert cur. induction s as [|c s IH]; intros cur H; simpl in *.
  - now rewrite string_app_nil_r.
  - destruct (Ascii.eqb c sep); [discriminate |].
    rewrite IH by exact H. now rewrite string_app_assoc.
Qed.

(** The first segment ends at the first separator. *)
Lemma splitOn_first (sep : ascii) (s rest cur : string) :
  GoStrings.Count s sep = 0 ->
  GoStrings.splitOn sep cur (s ++ String sep rest)
  = (cur ++ s)%string :: GoStrings.splitOn sep "" rest.
Proof.
  revert cur. induction s as [|c s IH]; intros cur H;
    rewrite ?append_cons, ?append_nil; simpl in *.
  - rewrite Ascii.eqb_refl. now rewrite string_app_nil_r.
  - destruct (Ascii.eqb c sep); [discriminate |].
    rewrite IH by exact H. now rewrite string_app_assoc.
Qed.

Lemma splitOn_cons (sep : ascii) (s cur : string) :
  exists a rest, GoStrings.splitOn sep cur s = a :: rest.
Proof.
  revert cur. induction s as [|c s IH]; intros cur; simpl.
  - now exists cur, [].
  - destruct (Ascii.eqb c sep); [now exists cur, (GoStrings.splitOn sep "" s) |].
    apply IH.
Qed.

(** A string that holds the separator has at least two segments. *)
Lemma splitOn_two (sep : ascii) (s cur : string) :
  1 <= GoStrings.Count s sep ->
  exists a b rest, GoStrings.splitOn sep cur s = a :: b :: rest.
Proof.
  revert cur. induction s as [|c s IH]; intros cur H; simpl in *.
  - lia.
  - destruct (Ascii.eqb c sep).
    + destruct (splitOn_cons sep s "") as (b & rest & ->).
      now exists cur, b, rest.
    + apply IH. exact H.
Qed.

Lemma Count_app (s t : string) (sep : ascii) :
  GoStrings.Count (s ++ t) sep = GoStrings.Count s sep + GoStrings.Count t sep.
Proof.
  induction s as [|c s IH]; rewrite ?append_cons, ?append_nil; simpl;
    [reflexivity | rewrite IH; lia].
Qed.

End StringFacts.

(** ** Bootstrap options *)

Section BootstrapFacts.

Context {Client RESTClientGetter Printer ProviderClient UserRepository : Type}.

Abbreviation options := (@Bootstrap.options Client RESTClientGetter Printer).
Abbreviation Option := (@Bootstrap.Option Client RESTClientGetter Printer).
Abbreviation New :=
  (@Bootstrap.New Client RESTClientGetter Printer ProviderClient UserRepository).


End BootstrapFacts.


(** ** Version resolution *)

Section ResolveFacts.
Import OCM.

Variable sv : Semver.Lib.

(** What [find] picks is the first satisfying element. *)
Lemma find_first (constraint : Semver.Constraints sv) (vnames : list string)
    (vname : string) :
  find (satisfies constraint) vnames = Some vname <->
  exists pre post,
    vnames = (pre ++ vname :: post)%list
    /\ Forall (fun s => satisfies constraint s = false) pre
    /\ satisfies constraint vname = true.
Proof.
  split.
  - revert vname. induction vnames as [|s rest IH]; intros vname H; simpl in H.
    + discriminate.
    + destruct (satisfies constraint s) eqn:Hs.
      * injection H as <-. exists [], rest. auto.
      * destruct (IH _ H) as (pre & post & -> & Hpre & Hv).
        exists (s :: pre), post. auto.
  - intros (pre & post & -> & Hpre & Hv).
    induction Hpre as [|s pre Hs _ IH]; simpl.
    + now rewrite Hv.
    + now rewrite Hs.
Qed.

Lemma findVersion_parsed (constraint : Semver.Constraints sv)
    (vnames : list string) :
  Semver.OriginalLaw sv ->
  parsesUntilMatch constraint vnames = true ->
  match find (satisfies constraint) vnames with
  | Some vname =>
      exists v, Flux.findVersion sv constraint vnames = Ok (Some v)
                /\ Semver.Original sv v = vname
  | None => Flux.findVersion sv constraint vnames = Ok None
  end.
Proof.
  intros Horig. induction vnames as [|s rest IH]; simpl; intros H.
  - reflexivity.
  - unfold parses, satisfies in *.
    destruct (Semver.NewVersion sv s) as [v|e] eqn:Hp; [|discriminate].
    simpl in H. destruct (Semver.Check sv constraint v) eqn:Hc.
    + exists v. split; [reflexivity | now apply Horig].
    + apply IH. exact H.
Qed.


(** The loop fails at a name that does not parse when no name before it
    satisfies the constraint. *)
Lemma findVersion_malformed (constraint : Semver.Constraints sv)
    (pre post : list string) (bad : string) (e : error) :
  Semver.NewVersion sv bad = Err e ->
  Forall (fun s => satisfies constraint s = false) pre ->
  exists s e',
    In s (pre ++ [bad])%list
    /\ Semver.NewVersion sv s = Err e'
    /\ Flux.findVersion sv constraint (pre ++ bad :: post)%list = Err e'.
Proof.
  intros Hbad Hpre. induction Hpre as [|s pre Hs _ IH]; simpl.
  - exists bad, e. rewrite Hbad. auto.
  - unfold satisfies in Hs.
    destruct (Semver.NewVersion sv s) as [v|e0] eqn:Hp.
    + rewrite Hs. destruct IH as (s' & e' & Hin & Hp' & Hf).
      exists s', e'. auto.
    + exists s, e0. auto.
Qed.


End ResolveFacts.

(** The reference instance keeps the string a version was parsed from. *)
Lemma SemverRef_original : Semver.OriginalLaw SemverRef.lib.
Proof.
  intros s v. simpl. unfold SemverRef.NewVersion.
  destruct (GoStrings.Split (SemverRef.stripV s) ".") as [|a [|b [|c [|d l]]]];
    try discriminate;
    repeat match goal with
           | |- context [SemverRef.number ?x] => destruct (SemverRef.number x)
           end;
    try discriminate; now intros [= <-].
Qed.





(** ** Image coordinates and extraction *)

Section ExtractFacts.
Import OCM.

(** C3, as amended.  A reference [name:tag] with its one colon yields the
    pair [(name, tag)], the split at that colon.  There is no error result:
    every reference that holds a colon yields a coordinate. *)
Theorem getResourceRef_name_tag (resource : ResourceAccess) :
  (forall name tag,
      GoStrings.Count name ":" = 0 ->
      GoStrings.Count tag ":" = 0 ->
      Access resource = Ok (OCIArtifactAccessSpec (name ++ ":" ++ tag)) ->
      GoStrings.Count (name ++ ":" ++ tag) ":" = 1
      /\ Flux.getResourceRef resource = Returns (name, tag))
  /\ (forall im,
        Access resource = Ok (OCIArtifactAccessSpec im) ->
        1 <= GoStrings.Count im ":" ->
        exists name tag, Flux.getResourceRef resource = Returns (name, tag)).
Proof.
  split.
  - intros name tag Hname Htag Hacc. split.
    + rewrite Count_app. change (":" ++ tag)%string with (String ":" tag).
      simpl. rewrite Hname, Htag. reflexivity.
    + unfold Flux.getResourceRef, GoStrings.Split. rewrite Hacc.
      change (":" ++ tag)%string with (String ":" tag).
      rewrite splitOn_first by exact Hname.
      rewrite splitOn_none by exact Htag. reflexivity.
  - intros im Hacc Hcount.
    unfold Flux.getResourceRef, GoStrings.Split. rewrite Hacc.
    destruct (splitOn_two ":" im "" Hcount) as (a & b & rest & ->).
    now exists a, b.
Qed.

(** A failing [Access] is not reported: the coordinates are empty. *)
Lemma getResourceRef_access_error (resource : ResourceAccess) (e : error) :
  Access resource = Err e -> Flux.getResourceRef resource = Returns ("", "").
Proof. unfold Flux.getResourceRef. now intros ->. Qed.

(** Appending the images of the rules one by one is mapping the rules. *)
Lemma localizeImages_map (host : string) (kconfig : ConfigData)
    (images : gmap string nameTag) (kus : Kustomization) :
  Flux.localizeImages host kconfig images kus
  = mkKustomization (APIVersion kus) (Kind kus) (Resources kus)
      (Images kus
         ++ map (fun loc =>
                   mkImage (host ++ "/" ++ Resource_Name loc)
                     (Name (Flux.lookupImage images (Resource_Name loc)))
                     (Tag (Flux.lookupImage images (Resource_Name loc))))
              (Localization kconfig))%list.
Proof.
  unfold Flux.localizeImages. destruct kconfig as [rules]. simpl.
  revert kus. induction rules as [|loc rules IH]; intros kus; simpl.
  - rewrite app_nil_r. now destruct kus.
  - rewrite IH. unfold Flux.appendImage. simpl.
    now rewrite <- app_assoc.
Qed.

End ExtractFacts.

(** A reference of the form repo/name:tag. *)
Lemma getResourceRef_name_tag_example :
  Flux.getResourceRef
    (Scripted.imageResource "source-controller"
       (Ok (OCM.OCIArtifactAccessSpec
              ("ghcr.io/fluxcd/source-controller" ++ ":" ++ "v1.0.0"))))
  = Returns ("ghcr.io/fluxcd/source-controller", "v1.0.0").
Proof.
  exact (proj2 (proj1 (getResourceRef_name_tag
                         (Scripted.imageResource "source-controller"
                            (Ok (OCM.OCIArtifactAccessSpec
                                   ("ghcr.io/fluxcd/source-controller" ++ ":"
                                    ++ "v1.0.0")))))
                  "ghcr.io/fluxcd/source-controller" "v1.0.0"
                  eq_refl eq_refl eq_refl)).
Defined.

(** C3 as stated fails: a reference with a registry port has two colons; it
    is neither rejected nor split at its last colon. *)
Lemma getResourceRef_counterexample :
  GoStrings.Count "localhost:5000/name:tag" ":" = 2
  /\ Flux.getResourceRef
       (Scripted.imageResource "name"
          (Ok (OCM.OCIArtifactAccessSpec "localhost:5000/name:tag")))
     = Returns ("localhost", "5000/name").
Proof. split; reflexivity. Qed.

(** ** Manifest generation *)

Section GenerateFacts.
Import Run.

Context {W : Type}.
Variable sys : Sys W.

(** C4, as amended.  [generateGOTKComponent] builds the descriptor it was
    given with one image override appended per localization rule, in rule
    order, matched or not: the target name is the default host joined with
    the rule's resource name, the replacement name and tag are those of the
    coordinate found under that name, and empty when there is none. *)
Theorem generateGOTKComponent_overrides (f : FluxInstall.fluxInstall)
    (kconfig : ConfigData) (images : gmap string nameTag)
    (kus : Kustomization) (kfile : string) :
  FluxInstall.generateGOTKComponent sys f kconfig images kus kfile
  = FluxInstall.buildKustomization sys
      (mkKustomization (APIVersion kus) (Kind kus) (Resources kus)
         (Images kus ++ map (overrideOf sys images) (Localization kconfig))%list)
      kfile (FluxInstall.dir f).
Proof.
  unfold FluxInstall.generateGOTKComponent. rewrite localizeImages_map.
  do 3 f_equal. apply map_ext. intros loc.
  unfold overrideOf, Flux.lookupImage.
  now destruct (images !! Resource_Name loc).
Qed.

End GenerateFacts.

(** C4 as stated fails: a rule whose resource has no coordinate is not
    skipped; an override with empty replacement name and tag is emitted. *)
Lemma generateGOTKComponent_counterexample :
  (∅ : gmap string nameTag) !! "source-controller" = None
  /\ Images
       (Flux.localizeImages "ghcr.io/fluxcd"
          (mkConfigData [mkLocalizationRule "source-controller" "install.yaml" "image"])
          ∅ (mkKustomization "v1" "Kustomization" ["./gotk-components.yaml"] []))
     = [mkImage "ghcr.io/fluxcd/source-controller" "" ""].
Proof. split; reflexivity. Qed.


(** ** Traces *)

Section TraceFacts.
Import Run.

Context {W : Type}.

Lemma extends_refl (P : Op -> bool) (s : State W) : extends P s s.
Proof. exists []. split; [now rewrite app_nil_r | constructor]. Qed.

Lemma extends_trans (P : Op -> bool) (s1 s2 s3 : State W) :
  extends P s1 s2 -> extends P s2 s3 -> extends P s1 s3.
Proof.
  intros (e1 & H1 & F1) (e2 & H2 & F2). exists (e1 ++ e2)%list. split.
  - now rewrite H2, H1, app_assoc.
  - apply Forall_app. auto.
Qed.

Lemma extends_event (P : Op -> bool) (s : State W) (w : W) (op : Op)
    (r : option error) :
  P op = true -> extends P s (mkState w (trace s ++ [mkEvent op r])%list).
Proof. intros H. exists [mkEvent op r]. split; [reflexivity | now repeat constructor]. Qed.

Lemma bind_run {A B} (m : M W A) (k : A -> M W B) (s : State W) :
  bind m k s
  = match m s with
    | (Returns a, s') => k a s'
    | (Panics msg, s') => (Panics msg, s')
    end.
Proof. reflexivity. Qed.

Lemma emits_ret {A} (P : Op -> bool) (a : A) : emits P (ret (W:=W) a).
Proof. intros s. apply extends_refl. Qed.

Lemma emits_panic {A} (P : Op -> bool) (msg : string) :
  emits P (panic (W:=W) (A:=A) msg).
Proof. intros s. apply extends_refl. Qed.

Lemma emits_liftOutcome {A} (P : Op -> bool) (o : outcome A) :
  emits P (liftOutcome (W:=W) o).
Proof. intros s. apply extends_refl. Qed.

Lemma emits_bind {A B} (P : Op -> bool) (m : M W A) (k : A -> M W B) :
  emits P m -> (forall a, emits P (k a)) -> emits P (bind m k).
Proof.
  intros Hm Hk s. rewrite bind_run. specialize (Hm s).
  destruct (m s) as [[a|msg] s1]; simpl in Hm.
  - eapply extends_trans; [exact Hm | apply Hk].
  - exact Hm.
Qed.

Lemma emits_callErr (P : Op -> bool) (op : Op) (f : W -> option error * W) :
  P op = true -> emits P (callErr op f).
Proof.
  intros H s. unfold callErr. destruct (f (world s)) as [r w]. simpl.
  now apply extends_event.
Qed.

Lemma emits_callRes {A} (P : Op -> bool) (op : Op) (f : W -> result A * W) :
  P op = true -> emits P (callRes op f).
Proof.
  intros H s. unfold callRes. destruct (f (world s)) as [r w]. simpl.
  now apply extends_event.
Qed.

Lemma emits_callVal {A} (P : Op -> bool) (op : Op) (f : W -> A * W) :
  P op = true -> emits P (callVal op f).
Proof.
  intros H s. unfold callVal. destruct (f (world s)) as [r w]. simpl.
  now apply extends_event.
Qed.

Lemma emits_mark (P : Op -> bool) (op : Op) :
  P op = true -> emits P (mark (W:=W) op).
Proof. intros H s. unfold mark. simpl. now apply extends_event. Qed.

Lemma countOps_app (p : Op -> bool) (a b : list Event) :
  countOps p (a ++ b)%list = countOps p a + countOps p b.
Proof. unfold countOps. now rewrite filter_app, length_app. Qed.

Lemma countOps_nil (p : Op -> bool) : countOps p [] = 0.
Proof. reflexivity. Qed.

Lemma countOps_cons (p : Op -> bool) (e : Event) (a : list Event) :
  countOps p (e :: a) = (if p (evOp e) then 1 else 0) + countOps p a.
Proof.
  unfold countOps. rewrite filter_cons.
  destruct (p (evOp e)); case_decide; simpl; congruence.
Qed.

(** Events that all fail [p] hold none that passes it. *)
Lemma countOps_none (p : Op -> bool) (evs : list Event) :
  Forall (fun e => negb (p (evOp e)) = true) evs -> countOps p evs = 0.
Proof.
  induction 1 as [|e evs He _ IH]; [reflexivity |].
  rewrite countOps_cons, IH. now destruct (p (evOp e)).
Qed.

End TraceFacts.

(** Steps through a computation whose calls all pass a fixed predicate. *)
Ltac emits_step :=
  first
    [ apply emits_ret
    | apply emits_panic
    | apply emits_liftOutcome
    | apply emits_callErr; reflexivity
    | apply emits_callRes; reflexivity
    | apply emits_callVal; reflexivity
    | apply emits_mark; reflexivity
    | apply emits_bind; [| intros ?]
    | match goal with
      | |- emits _ (match ?x with _ => _ end) => destruct x
      | |- emits _ (if ?b then _ else _) => destruct b
      end ].

(** ** Commit and push *)

Section CommitFacts.
Import Run.

Context {W : Type}.
Variable sys : Sys W.

Lemma isErrNoStagedFiles_true (e : error) :
  isErrNoStagedFiles e = true <-> e = ErrNoStagedFiles.
Proof. destruct e; simpl; split; congruence. Qed.

Lemma isErrNoStagedFiles_false (e : error) :
  isErrNoStagedFiles e = false <-> e <> ErrNoStagedFiles.
Proof. destruct e; simpl; split; congruence. Qed.

(** C6.  One commit is attempted.  When it reports no staged files the run
    succeeds and nothing is pushed; any other commit error is returned,
    wrapped, and nothing is pushed; when the commit was created the push is
    attempted, and its failure is returned, wrapped.  So a push is
    attempted exactly when a commit was created. *)
Theorem commitAndPushComponents_commit_push (f : FluxInstall.fluxInstall)
    (path content : string) (st : State W)
    (cerr perr : option error) (w1 w2 : W) :
  git_Commit sys (FluxInstall.commitMessage f) path content (world st) = (cerr, w1) ->
  git_Push sys w1 = (perr, w2) ->
  let commitEv := mkEvent (GitCommit (FluxInstall.commitMessage f) path content) cerr in
  let pushEv := mkEvent GitPush perr in
  exists r st' evs,
    FluxInstall.commitAndPushComponents sys f path content st = (Returns r, st')
    /\ trace st' = (trace st ++ evs)%list
    /\ countOps isCommit evs = 1
    /\ (cerr = Some ErrNoStagedFiles ->
        r = None /\ evs = [commitEv] /\ world st' = w1)
    /\ (forall e, cerr = Some e -> e <> ErrNoStagedFiles ->
        r = Some (fmt_Errorf "failed to commit sync manifests" e)
        /\ evs = [commitEv] /\ world st' = w1)
    /\ (cerr = None ->
        evs = [commitEv; pushEv] /\ world st' = w2
        /\ r = match perr with
               | Some e => Some (fmt_Errorf "failed to push manifests" e)
               | None => None
               end)
    /\ (countOps isPush evs = 1 <-> cerr = None)
    /\ (countOps isPush evs = 0 <-> cerr <> None).
Proof.
  intros Hc Hp commitEv pushEv.
  unfold FluxInstall.commitAndPushComponents. rewrite bind_run.
  unfold callErr at 1. rewrite Hc.
  destruct cerr as [e|].
  - destruct (isErrNoStagedFiles e) eqn:He; simpl.
    + apply isErrNoStagedFiles_true in He. subst e.
      exists None, (mkState w1 (trace st ++ [commitEv])%list), [commitEv].
      repeat split; intros; try reflexivity; try congruence; discriminate.
    + apply isErrNoStagedFiles_false in He.
      exists (Some (fmt_Errorf "failed to commit sync manifests" e)),
        (mkState w1 (trace st ++ [commitEv])%list), [commitEv].
      repeat split; intros; try reflexivity; try congruence; discriminate.
  - rewrite bind_run. unfold callErr. simpl. rewrite Hp.
    exists (match perr with
            | Some e => Some (fmt_Errorf "failed to push manifests" e)
            | None => None
            end),
      (mkState w2 (trace st ++ [commitEv; pushEv])%list), [commitEv; pushEv].
    repeat split; intros; try reflexivity; try congruence; try discriminate.
    all: destruct perr; simpl; unfold ret; rewrite <- ?app_assoc; reflexivity.
Qed.

End CommitFacts.

(** A commit is created and the push is rejected: the failure surfaces. *)
Lemma commitAndPushComponents_push_failure :
  exists st',
    FluxInstall.commitAndPushComponents Scripted.sys (Scripted.installer ["v0.1.0"] [])
      "clusters/flux-system/gotk-components.yaml" "manifests"
      (Scripted.start [None; Some (errorString "rejected")])
    = (Returns (Some (fmt_Errorf "failed to push manifests" (errorString "rejected"))),
       st')
    /\ Run.countOps Run.isPush (Run.trace st') = 1.
Proof.
  destruct (commitAndPushComponents_commit_push Scripted.sys
              (Scripted.installer ["v0.1.0"] [])
              "clusters/flux-system/gotk-components.yaml" "manifests"
              (Scripted.start [None; Some (errorString "rejected")])
              None (Some (errorString "rejected"))
              [Some (errorString "rejected")] [] eq_refl eq_refl)
    as (r & st' & evs & Hrun & Htr & _ & _ & _ & Hpush & Hcount & _).
  destruct (Hpush eq_refl) as (_ & _ & ->).
  exists st'. split; [exact Hrun |].
  rewrite Htr. simpl. apply Hcount. reflexivity.
Defined.

(** ** Install: required resources and the health phase *)

Section InstallFacts.
Import OCM Run.

Context {W : Type}.
Variable sv : Semver.Lib.
Variable sys : Sys W.

Lemma removeEntries_beforeHealth (dirs : list string) (err : option error) :
  emits beforeHealth (FluxInstall.removeEntries sys dirs err).
Proof.
  revert err. induction dirs as [|d dirs IH]; intros err; simpl.
  - apply emits_ret.
  - repeat emits_step; apply IH.
Qed.

Lemma cleanGitRepoDir_beforeHealth :
  emits beforeHealth (FluxInstall.cleanGitRepoDir sys).
Proof.
  unfold FluxInstall.cleanGitRepoDir.
  repeat emits_step. apply removeEntries_beforeHealth.
Qed.

Lemma retryFrom_beforeHealth (fuel : nat) (i retries wait : Z)
    (fn : M W (option error)) :
  emits beforeHealth fn ->
  emits beforeHealth (FluxInstall.retryFrom sys fuel i retries wait fn).
Proof.
  intros Hfn. revert i. induction fuel as [|fuel IH]; intros i; simpl.
  - apply emits_bind; [exact Hfn | intros ?]. repeat emits_step.
  - apply emits_bind; [exact Hfn | intros ?]. repeat emits_step. apply IH.
Qed.

Lemma cleanAndClone_beforeHealth (f : FluxInstall.fluxInstall) :
  emits beforeHealth (FluxInstall.cleanAndClone sys f).
Proof.
  unfold FluxInstall.cleanAndClone.
  apply emits_bind; [apply cleanGitRepoDir_beforeHealth | intros ?].
  repeat emits_step.
Qed.

Lemma cloneRepository_beforeHealth (f : FluxInstall.fluxInstall) :
  emits beforeHealth (FluxInstall.cloneRepository sys f).
Proof.
  unfold FluxInstall.cloneRepository.
  apply emits_bind; [emits_step | intros herr].
  destruct herr as [err|]; [| apply emits_ret].
  destruct (negb (isErrNoGitRepository err)); [apply emits_ret |].
  apply emits_bind; [| intros ?; repeat emits_step].
  apply retryFrom_beforeHealth, cleanAndClone_beforeHealth.
Qed.

Lemma commitAndPushComponents_beforeHealth (f : FluxInstall.fluxInstall)
    (path content : string) :
  emits beforeHealth (FluxInstall.commitAndPushComponents sys f path content).
Proof. unfold FluxInstall.commitAndPushComponents. repeat emits_step. Qed.

Lemma reconcileComponents_beforeHealth (f : FluxInstall.fluxInstall)
    (path content : string) :
  emits beforeHealth (FluxInstall.reconcileComponents sys f path content).
Proof.
  unfold FluxInstall.reconcileComponents.
  apply emits_bind; [apply cloneRepository_beforeHealth | intros err].
  destruct err; [apply emits_ret |].
  apply emits_bind; [apply commitAndPushComponents_beforeHealth | intros err].
  destruct err; [apply emits_ret |].
  unfold FluxInstall.mustInstallManifests, FluxInstall.applyFile.
  repeat emits_step.
Qed.

Lemma generateKustomization_beforeHealth (f : FluxInstall.fluxInstall)
    (fluxResource ocmConfig : bytes) :
  emits beforeHealth (FluxInstall.generateKustomization sys f fluxResource ocmConfig).
Proof.
  unfold FluxInstall.generateKustomization, FluxInstall.genKus,
    FluxInstall.generateKustomizationFile.
  repeat emits_step.
Qed.

Lemma generateGOTKComponent_beforeHealth (f : FluxInstall.fluxInstall)
    (kconfig : ConfigData) (images : gmap string nameTag)
    (kus : Kustomization) (kfile : string) :
  emits beforeHealth (FluxInstall.generateGOTKComponent sys f kconfig images kus kfile).
Proof.
  unfold FluxInstall.generateGOTKComponent, FluxInstall.buildKustomization.
  repeat emits_step.
Qed.

(** A run of [Install] ends before the health phase, or enters it after
    calls that are not health reports: what holds of both holds of the
    run. *)
Lemma Install_cases (f : FluxInstall.fluxInstall) (component : string)
    (st : State W) (Q : outcome (option error) * State W -> Prop) :
  (forall x, extends beforeHealth st (snd x) -> Q x) ->
  (forall st1 components,
      extends beforeHealth st st1 ->
      Q (FluxInstall.reportHealth sys f (FluxInstall.syncOptions sys f)
           components st1)) ->
  Q (FluxInstall.Install sv sys f component st).
Proof.
  intros Hearly Hhealth.
  unfold FluxInstall.Install.
  destruct (Flux.getComponentVersion _ _ _ _) as [cv|e];
    [| apply Hearly, extends_refl].
  rewrite bind_run. unfold liftOutcome.
  destruct (Flux.getResources _ cv component) as [[r|e]|msg];
    try (apply Hearly, extends_refl).
  destruct (FluxInstall.isNil _ || FluxInstall.isNil _);
    [apply Hearly, extends_refl |].
  rewrite bind_run.
  pose proof (generateKustomization_beforeHealth f (componentResource r)
                (ocmConfig r) st) as H1.
  destruct (FluxInstall.generateKustomization _ _ _ _ st)
    as [[[[kfile kus]|e]|msg] s1]; simpl in H1; try (apply Hearly; exact H1).
  destruct (FluxInstall.unMarshallConfig _ _) as [kconfig|e];
    [| apply Hearly; exact H1].
  rewrite bind_run.
  pose proof (generateGOTKComponent_beforeHealth f kconfig (imagesResources r)
                kus kfile s1) as H2.
  destruct (FluxInstall.generateGOTKComponent _ _ _ _ _ _ s1)
    as [[[res|e]|msg] s2]; simpl in H2;
    pose proof (extends_trans _ _ _ _ H1 H2) as H12;
    try (apply Hearly; exact H12).
  rewrite bind_run.
  pose proof (reconcileComponents_beforeHealth f
                (FluxInstall.targetPath f ++ "/" ++ FluxInstall.namespace f
                 ++ "/" ++ "gotk-components.yaml")
                (FluxInstall.stringOfBytes res) s2) as H3.
  destruct (FluxInstall.reconcileComponents _ _ _ _ s2)
    as [[[e|]|msg] s3]; simpl in H3;
    pose proof (extends_trans _ _ _ _ H12 H3) as H13;
    try (apply Hearly; exact H13).
  rewrite bind_run.
  pose proof (emits_callErr beforeHealth
                (ReconcileSourceSecret (FluxInstall.secretOptions sys f))
                (flux_ReconcileSourceSecret sys (FluxInstall.secretOptions sys f))
                eq_refl s3) as H4.
  destruct (callErr _ _ s3) as [[[e|]|msg] s4]; simpl in H4;
    pose proof (extends_trans _ _ _ _ H13 H4) as H14;
    try (apply Hearly; exact H14).
  rewrite bind_run.
  pose proof (emits_callErr beforeHealth
                (ReconcileSyncConfig (FluxInstall.syncOptions sys f))
                (flux_ReconcileSyncConfig sys (FluxInstall.syncOptions sys f))
                eq_refl s4) as H5.
  destruct (callErr _ _ s4) as [[[e|]|msg] s5]; simpl in H5;
    pose proof (extends_trans _ _ _ _ H14 H5) as H15;
    try (apply Hearly; exact H15).
  apply Hhealth. exact H15.
Qed.

Lemma beforeHealth_counts (evs : list Event) :
  Forall (fun e => beforeHealth (evOp e) = true) evs ->
  countOps isKustomizationHealth evs = 0 /\ countOps isComponentsHealth evs = 0.
Proof.
  intros H. split; apply countOps_none; eapply Forall_impl; try exact H;
    intros e He; unfold beforeHealth in He; simpl in He;
    apply negb_true_iff, orb_false_iff in He; apply negb_true_iff; tauto.
Qed.


Lemma getResourcesLoop_componentResource (componentName : string)
    (res : list ResourceAccess) (acc r : resources) :
  Forall (fun x => Meta_Name x <> componentName) res ->
  Flux.getResourcesLoop (AutoDecompress sys) componentName res acc = Returns (Ok r) ->
  componentResource r = componentResource acc.
Proof.
  intros Hres. revert acc. induction Hres as [|x res Hx _ IH]; intros acc; simpl.
  - now intros [= <-].
  - apply String.eqb_neq in Hx. rewrite Hx.
    destruct (String.eqb (Meta_Name x) "ocm-config").
    + destruct (Flux.getResourceContent _ x); [| discriminate].
      intros H. now rewrite (IH _ H).
    + destruct (String.eqb (Meta_Type x) "ociImage").
      * destruct (Flux.getResourceRef x) as [[n v]|]; [| discriminate].
        intros H. now rewrite (IH _ H).
      * apply IH.
Qed.

Lemma getResourcesLoop_ocmConfig (componentName : string)
    (res : list ResourceAccess) (acc r : resources) :
  Forall (fun x => Meta_Name x <> "ocm-config") res ->
  Flux.getResourcesLoop (AutoDecompress sys) componentName res acc = Returns (Ok r) ->
  ocmConfig r = ocmConfig acc.
Proof.
  intros Hres. revert acc. induction Hres as [|x res Hx _ IH]; intros acc; simpl.
  - now intros [= <-].
  - apply String.eqb_neq in Hx. rewrite Hx.
    destruct (String.eqb (Meta_Name x) componentName).
    + destruct (Flux.getResourceContent _ x); [| discriminate].
      intros H. now rewrite (IH _ H).
    + destruct (String.eqb (Meta_Type x) "ociImage").
      * destruct (Flux.getResourceRef x) as [[n v]|]; [| discriminate].
        intros H. now rewrite (IH _ H).
      * apply IH.
Qed.


End InstallFacts.



(** ** Clone and retry *)

Section CloneFacts.
Import Run.

Context {W : Type}.
Variable sys : Sys W.

Lemma isErrNoGitRepository_true (e : error) :
  isErrNoGitRepository e = true <-> e = ErrNoGitRepository.
Proof. destruct e; simpl; split; congruence. Qed.

Lemma isErrNoGitRepository_true_false (e : error) :
  isErrNoGitRepository e = false -> e <> ErrNoGitRepository.
Proof. destruct e; simpl; congruence. Qed.

Lemma removalEvents_count (p : Op -> bool) (dirs : list string)
    (rms : list (option error)) :
  (forall path, p (OsRemoveAll path) = false) ->
  countOps p (removalEvents sys dirs rms) = 0.
Proof.
  intros Hp. unfold removalEvents. revert rms.
  induction dirs as [|d dirs IH]; intros [|r rms]; simpl; try reflexivity.
  rewrite countOps_cons. simpl. now rewrite Hp, IH.
Qed.

(** [removeEntries] calls [os.RemoveAll] on every entry, in order, and
    returns nil only when it started from nil and every removal succeeded. *)
Lemma removeEntries_all (dirs : list string) (err : option error) (s : State W) :
  exists rms err' s',
    length rms = length dirs
    /\ FluxInstall.removeEntries sys dirs err s = (Returns err', s')
    /\ trace s' = (trace s ++ removalEvents sys dirs rms)%list
    /\ isNone err' = isNone err && forallb isNone rms.
Proof.
  revert err s. induction dirs as [|d dirs IH]; intros err s; simpl.
  - exists [], err, s. repeat split.
    + now rewrite app_nil_r.
    + now rewrite andb_true_r.
  - rewrite bind_run. unfold callErr.
    destruct (os_RemoveAll sys _ (world s)) as [er w] eqn:Hrm.
    destruct er as [e|].
    + destruct (IH (errors_Join [err; Some e])
                  (mkState w (trace s
                              ++ [mkEvent
                                    (OsRemoveAll (filepath_Join sys (git_Path sys) d))
                                    (Some e)])%list))
        as (rms & err' & s' & Hlen & Hrun & Htr & Hnone).
      exists (Some e :: rms), err', s'. repeat split.
      * simpl. now rewrite Hlen.
      * exact Hrun.
      * rewrite Htr. simpl. now rewrite <- app_assoc.
      * rewrite Hnone. simpl. destruct err; simpl; now rewrite ?andb_false_r.
    + destruct (IH err
                  (mkState w (trace s
                              ++ [mkEvent
                                    (OsRemoveAll (filepath_Join sys (git_Path sys) d))
                                    None])%list))
        as (rms & err' & s' & Hlen & Hrun & Htr & Hnone).
      exists (None :: rms), err', s'. repeat split.
      * simpl. now rewrite Hlen.
      * exact Hrun.
      * rewrite Htr. simpl. now rewrite <- app_assoc.
      * rewrite Hnone. reflexivity.
Qed.

Lemma cleanAndClone_attempt (f : FluxInstall.fluxInstall) (s : State W) :
  exists r s', attempt sys f s r s'.
Proof.
  unfold attempt, FluxInstall.cleanAndClone, FluxInstall.cleanGitRepoDir.
  rewrite !bind_run. unfold callRes.
  destruct (os_ReadDir sys (git_Path sys) (world s)) as [[dirs|e] w] eqn:Hls;
    simpl.
  - destruct (removeEntries_all dirs None
                (mkState w (trace s
                            ++ [mkEvent (OsReadDir (git_Path sys)) None])%list))
      as (rms & err' & s1 & Hlen & Hrun & Htr & Hnone).
    rewrite Hrun. simpl in Hnone, Htr.
    destruct err' as [e|]; simpl in Hnone.
    + eexists _, _. split; [reflexivity |]. eexists. split.
      { rewrite Htr, <- app_assoc. reflexivity. }
      simpl. rewrite countOps_cons, !removalEvents_count by reflexivity.
      rewrite countOps_cons, !removalEvents_count by reflexivity. simpl.
      split; [lia |]. split; [lia |].
      exists rms. split; [exact Hlen |]. rewrite <- Hnone. eauto.
    + unfold callErr.
      destruct (git_Clone sys _ _ (world s1)) as [cr w2] eqn:Hcl.
      eexists _, _. split; [reflexivity |]. eexists. split.
      { simpl. rewrite Htr, <- !app_assoc. reflexivity. }
      simpl. rewrite !countOps_cons, !countOps_app, !countOps_cons,
               !removalEvents_count by reflexivity.
      simpl. unfold countOps. simpl. split; [lia |]. split; [lia |].
      exists rms. split; [exact Hlen |]. rewrite <- Hnone. reflexivity.
  - eexists _, _. split; [reflexivity |]. eexists. split; [reflexivity |].
    rewrite !countOps_cons. unfold countOps. simpl.
    split; [lia |]. split; [lia |]. split; reflexivity.
Qed.

(** The fuel of [retryFrom] is enough once it covers [retries - i]: more
    fuel changes nothing, for any closure. *)
Lemma retryFrom_enough (fn : M W (option error)) (wait : Z)
    (fuel1 fuel2 : nat) (i retries : Z) (s : State W) :
  (retries - i <= Z.of_nat fuel1)%Z ->
  (retries - i <= Z.of_nat fuel2)%Z ->
  FluxInstall.retryFrom sys fuel1 i retries wait fn s
  = FluxInstall.retryFrom sys fuel2 i retries wait fn s.
Proof.
  revert fuel2 i s. induction fuel1 as [|fuel1 IH]; intros fuel2 i s H1 H2.
  - destruct fuel2 as [|fuel2]; [reflexivity |].
    simpl. rewrite !bind_run.
    destruct (fn s) as [[[e|]|msg] s']; try reflexivity.
    assert (Hge : (i >=? retries)%Z = true) by (apply Z.geb_le; lia).
    now rewrite Hge.
  - simpl. rewrite bind_run.
    destruct fuel2 as [|fuel2]; simpl; rewrite bind_run;
      destruct (fn s) as [[[e|]|msg] s']; try reflexivity;
      destruct (i >=? retries)%Z eqn:Hge; try reflexivity.
    + rewrite Z.geb_leb in Hge. apply Z.leb_gt in Hge. lia.
    + rewrite !bind_run. unfold callVal. apply IH; lia.
Qed.

(** The loop of [retry] from counter [i], for a closure that is one call
    [CallFn label]: it returns, it makes between one and [retries - i + 1]
    calls with a sleep between two calls, and it returns nil exactly when a
    call returned nil. *)
Lemma retryFrom_calls (label : string) (op : W -> option error * W) (wait : Z)
    (fuel : nat) (i retries : Z) (s : State W) :
  (retries - i)%Z = Z.of_nat fuel ->
  exists r s' evs,
    FluxInstall.retryFrom sys fuel i retries wait (callErr (CallFn label) op) s
    = (Returns r, s')
    /\ trace s' = (trace s ++ evs)%list
    /\ 1 <= countOps isCallFn evs <= fuel + 1
    /\ countOps isSleep evs + 1 = countOps isCallFn evs
    /\ (r = None <-> In (mkEvent (CallFn label) None) evs).
Proof.
  revert i s. induction fuel as [|fuel IH]; intros i s Hfuel.
  - simpl. rewrite bind_run. unfold callErr.
    destruct (op (world s)) as [[e|] w].
    + assert (Hge : (i >=? retries)%Z = true) by (apply Z.geb_le; lia).
      rewrite Hge.
      eexists _, _, [_]. split; [reflexivity |]. split; [reflexivity |].
      rewrite !countOps_cons. unfold countOps. simpl.
      split; [lia |]. split; [lia |].
      split; [discriminate | intros [H|[]]; discriminate].
    + eexists _, _, [_]. split; [reflexivity |]. split; [reflexivity |].
      rewrite !countOps_cons. unfold countOps. simpl.
      split; [lia |]. split; [lia |]. split; auto.
  - simpl. rewrite bind_run. unfold callErr at 1.
    destruct (op (world s)) as [[e|] w].
    + assert (Hlt : (i >=? retries)%Z = false)
        by (rewrite Z.geb_leb; apply Z.leb_gt; lia).
      rewrite Hlt, bind_run. unfold callVal. simpl.
      destruct (IH (i + 1)%Z
                  (mkState (time_Sleep sys wait w)
                     ((trace s ++ [mkEvent (CallFn label) (Some e)])
                      ++ [mkEvent (TimeSleep wait) None])%list)
                  ltac:(lia))
        as (r & s' & evs & Hrun & Htr & Hcount & Hsleep & Hnil).
      exists r, s',
        (mkEvent (CallFn label) (Some e) :: mkEvent (TimeSleep wait) None :: evs).
      split; [exact Hrun |].
      split; [rewrite Htr; simpl; now rewrite <- !app_assoc |].
      rewrite !countOps_cons. simpl.
      split; [lia |]. split; [lia |].
      rewrite Hnil. split; [auto |].
      intros [H|[H|H]]; [discriminate | discriminate | exact H].
    + eexists _, _, [_]. split; [reflexivity |]. split; [reflexivity |].
      rewrite !countOps_cons. unfold countOps. simpl.
      split; [lia |]. split; [lia |]. split; auto.
Qed.

(** [retry(n, wait, fn)] for a retry count [n]: the closure is called at
    least once and at most [n + 1] times, and the result is nil exactly when
    some call returned nil. *)
Lemma retry_calls (n wait : Z) (label : string) (op : W -> option error * W)
    (s : State W) :
  (0 <= n)%Z ->
  exists r s' evs,
    FluxInstall.retry sys n wait (callErr (CallFn label) op) s = (Returns r, s')
    /\ trace s' = (trace s ++ evs)%list
    /\ (1 <= Z.of_nat (countOps isCallFn evs) <= n + 1)%Z
    /\ countOps isSleep evs + 1 = countOps isCallFn evs
    /\ (r = None <-> In (mkEvent (CallFn label) None) evs).
Proof.
  intros Hn. unfold FluxInstall.retry.
  destruct (retryFrom_calls label op wait (Z.to_nat n) 0 n s ltac:(lia))
    as (r & s' & evs & Hrun & Htr & Hcount & Hsleep & Hnil).
  exists r, s', evs. repeat split; try assumption; try lia; apply Hnil.
Qed.

(** [cloneRepository] when the head probe finds no repository: [retry]
    with one retry is the closure, and the closure again after the sleep
    when it failed. *)
Lemma cloneRepository_unfold (f : FluxInstall.fluxInstall) (st : State W) (w0 : W) :
  git_Head sys (world st) = (Some ErrNoGitRepository, w0) ->
  FluxInstall.cloneRepository sys f st
  = match FluxInstall.cleanAndClone sys f
            (mkState w0
               (trace st ++ [mkEvent GitHead (Some ErrNoGitRepository)])%list) with
    | (Returns None, s1) => (Returns None, s1)
    | (Returns (Some _), s1) =>
        match FluxInstall.cleanAndClone sys f (slept sys (2 * FluxInstall.Second) s1) with
        | (Returns None, s2) => (Returns None, s2)
        | (Returns (Some e), s2) =>
            (Returns (Some (fmt_Errorf "failed to clone repository" e)), s2)
        | (Panics msg, s2) => (Panics msg, s2)
        end
    | (Panics msg, s1) => (Panics msg, s1)
    end.
Proof.
  intros Hhead. unfold FluxInstall.cloneRepository.
  rewrite bind_run. unfold callErr at 1. rewrite Hhead.
  cbn [isErrNoGitRepository negb].
  rewrite bind_run. unfold FluxInstall.retry.
  change (Z.to_nat 1) with 1%nat. cbn [FluxInstall.retryFrom].
  rewrite bind_run.
  destruct (FluxInstall.cleanAndClone sys f _) as [[[e1|]|msg] s1];
    [| reflexivity | reflexivity].
  change (0 >=? 1)%Z with false. cbn iota.
  rewrite bind_run. unfold callVal at 1.
  rewrite bind_run. fold (slept sys (2 * FluxInstall.Second) s1).
  destruct (FluxInstall.cleanAndClone sys f _) as [[[e2|]|msg] s2];
    reflexivity.
Qed.

(** With a count that is not positive the closure is still called once:
    the bound [n + 1] is that of a retry count, which is not negative. *)
Lemma retry_once (n wait : Z) (label : string) (op : W -> option error * W)
    (s : State W) :
  (n <= 0)%Z ->
  FluxInstall.retry sys n wait (callErr (CallFn label) op) s
  = callErr (CallFn label) op s.
Proof.
  intros Hn. unfold FluxInstall.retry.
  replace (Z.to_nat n) with 0%nat by lia. simpl.
  rewrite bind_run. destruct (callErr (CallFn label) op s) as [[[e|]|msg] s'];
    try reflexivity.
  assert (Hge : (0 >=? n)%Z = true) by (apply Z.geb_le; lia).
  now rewrite Hge.
Qed.

(** C8.  After the head probe: nil, nothing is cloned; an error other than
    no repository is returned as it is; no repository, the closure runs
    once, and once more after a sleep of two seconds when the first run
    failed, each run removing every listed entry before it clones; the
    failure of the second run is returned wrapped.  At most two clones are
    attempted.  In general [retry(n, wait, fn)] calls [fn] at most [n + 1]
    times and returns nil exactly when a call returned nil. *)
Theorem cloneRepository_retries (f : FluxInstall.fluxInstall) (st : State W)
    (herr : option error) (w0 : W) :
  git_Head sys (world st) = (herr, w0) ->
  let s0 := mkState w0 (trace st ++ [mkEvent GitHead herr])%list in
  (herr = None -> FluxInstall.cloneRepository sys f st = (Returns None, s0))
  /\ (forall e, herr = Some e -> e <> ErrNoGitRepository ->
      FluxInstall.cloneRepository sys f st = (Returns (Some e), s0))
  /\ (herr = Some ErrNoGitRepository ->
      exists r1 s1,
        attempt sys f s0 r1 s1
        /\ match r1 with
           | None => FluxInstall.cloneRepository sys f st = (Returns None, s1)
           | Some _ =>
               exists r2 s2,
                 attempt sys f (slept sys (2 * FluxInstall.Second) s1) r2 s2
                 /\ FluxInstall.cloneRepository sys f st
                    = (Returns
                         match r2 with
                         | Some e => Some (fmt_Errorf "failed to clone repository" e)
                         | None => None
                         end,
                       s2)
           end)
  /\ (exists r st' evs,
        FluxInstall.cloneRepository sys f st = (Returns r, st')
        /\ trace st' = (trace st ++ evs)%list
        /\ countOps isClone evs <= 2
        /\ countOps isSleep evs <= 1)
  /\ (forall (n wait : Z) (label : string) (op : W -> option error * W)
        (s : State W),
        (0 <= n)%Z ->
        exists r s' evs,
          FluxInstall.retry sys n wait (callErr (CallFn label) op) s
          = (Returns r, s')
          /\ trace s' = (trace s ++ evs)%list
          /\ (1 <= Z.of_nat (countOps isCallFn evs) <= n + 1)%Z
          /\ countOps isSleep evs + 1 = countOps isCallFn evs
          /\ (r = None <-> In (mkEvent (CallFn label) None) evs)).
Proof.
  intros Hhead s0.
  assert (Hnorepo :
            herr = Some ErrNoGitRepository ->
            exists r1 s1,
              attempt sys f s0 r1 s1
              /\ match r1 with
                 | None => FluxInstall.cloneRepository sys f st = (Returns None, s1)
                 | Some _ =>
                     exists r2 s2,
                       attempt sys f (slept sys (2 * FluxInstall.Second) s1) r2 s2
                       /\ FluxInstall.cloneRepository sys f st
                          = (Returns
                               match r2 with
                               | Some e =>
                                   Some (fmt_Errorf "failed to clone repository" e)
                               | None => None
                               end,
                             s2)
                 end).
  { intros ->.
    destruct (cleanAndClone_attempt f s0) as (r1 & s1 & Ha1).
    exists r1, s1. split; [exact Ha1 |].
    destruct Ha1 as [Hrun1 _].
    destruct r1 as [e1|].
    - destruct (cleanAndClone_attempt f (slept sys (2 * FluxInstall.Second) s1))
        as (r2 & s2 & Ha2).
      exists r2, s2. split; [exact Ha2 |].
      destruct Ha2 as [Hrun2 _].
      rewrite (cloneRepository_unfold f st w0 Hhead).
      fold s0. rewrite Hrun1, Hrun2. destruct r2; reflexivity.
    - rewrite (cloneRepository_unfold f st w0 Hhead).
      fold s0. rewrite Hrun1. reflexivity. }
  assert (Hnil : herr = None ->
                 FluxInstall.cloneRepository sys f st = (Returns None, s0)).
  { intros ->. unfold FluxInstall.cloneRepository.
    rewrite bind_run. unfold callErr. now rewrite Hhead. }
  assert (Hother : forall e, herr = Some e -> e <> ErrNoGitRepository ->
                   FluxInstall.cloneRepository sys f st = (Returns (Some e), s0)).
  { intros e -> Hne. unfold FluxInstall.cloneRepository.
    rewrite bind_run. unfold callErr. rewrite Hhead.
    destruct (isErrNoGitRepository e) eqn:He; [| reflexivity].
    apply isErrNoGitRepository_true in He. contradiction. }
  split; [exact Hnil |]. split; [exact Hother |]. split; [exact Hnorepo |].
  split; [| intros n wait label op s Hn; now apply retry_calls].
  destruct herr as [e|].
  - destruct (isErrNoGitRepository e) eqn:He.
    + apply isErrNoGitRepository_true in He. subst e.
      destruct (Hnorepo eq_refl) as (r1 & s1 & Ha1 & Hrest).
      destruct Ha1 as (_ & evs1 & Htr1 & Hc1 & Hs1 & _).
      destruct r1 as [e1|].
      * destruct Hrest as (r2 & s2 & Ha2 & Hrun).
        destruct Ha2 as (_ & evs2 & Htr2 & Hc2 & Hs2 & _).
        eexists _, s2, _. split; [exact Hrun |]. split.
        { rewrite Htr2. unfold slept. simpl. rewrite Htr1. subst s0. simpl.
          rewrite <- !app_assoc. reflexivity. }
        rewrite !countOps_app, !countOps_cons, !countOps_nil. simpl. lia.
      * eexists _, s1, _. split; [exact Hrest |]. split.
        { rewrite Htr1. subst s0. simpl. rewrite <- !app_assoc. reflexivity. }
        rewrite !countOps_app, !countOps_cons, !countOps_nil. simpl. lia.
    + apply isErrNoGitRepository_true_false in He.
      eexists _, s0, [_]. split; [apply Hother; [reflexivity | exact He] |].
      split; [reflexivity |]. unfold countOps. simpl. lia.
  - eexists _, s0, [_]. split; [apply Hnil; reflexivity |].
    split; [reflexivity |]. unfold countOps. simpl. lia.
Qed.

End CloneFacts.

(** No repository, a clone that fails once and succeeds on retry. *)
Lemma cloneRepository_retries_example :
  exists r st' evs,
    FluxInstall.cloneRepository Scripted.sys (Scripted.installer ["v0.1.0"] [])
      (Scripted.start
         [Some ErrNoGitRepository; None; None; None; Some (errorString "network")])
    = (Returns r, st')
    /\ Run.trace st' = ([] ++ evs)%list
    /\ Run.countOps Run.isClone evs <= 2
    /\ Run.countOps Run.isSleep evs <= 1.
Proof.
  exact (proj1 (proj2 (proj2 (proj2
           (cloneRepository_retries Scripted.sys (Scripted.installer ["v0.1.0"] [])
              (Scripted.start
                 [Some ErrNoGitRepository; None; None; None;
                  Some (errorString "network")])
              (Some ErrNoGitRepository)
              [None; None; None; Some (errorString "network")]
              eq_refl))))).
Defined.

(** * Further properties of the sources *)

(** ** Repository names *)

Section SplitFacts.

Lemma Join_splitOn (sep : ascii) (s cur : string) :
  GoStringsExt.Join (GoStrings.splitOn sep cur s) (String sep "") = (cur ++ s)%string.
Proof.
  revert cur. induction s as [|c s IH]; intros cur; simpl.
  - now rewrite string_app_nil_r.
  - destruct (Ascii.eqb c sep) eqn:Hc.
    + apply Ascii.eqb_eq in Hc. subst c.
      destruct (splitOn_cons sep s "") as (a & rest & Hsplit).
      specialize (IH ""%string). rewrite Hsplit in *.
      change (GoStringsExt.Join (cur :: a :: rest) (String sep ""))
        with (cur ++ String sep "" ++ GoStringsExt.Join (a :: rest) (String sep ""))%string.
      rewrite IH. reflexivity.
    + rewrite IH, string_app_assoc. reflexivity.
Qed.

Lemma splitOn_length (sep : ascii) (s cur : string) :
  length (GoStrings.splitOn sep cur s) = GoStrings.Count s sep + 1.
Proof.
  revert cur. induction s as [|c s IH]; intros cur; simpl.
  - reflexivity.
  - destruct (Ascii.eqb c sep); simpl; rewrite IH; lia.
Qed.

Lemma splitOn_segments (sep : ascii) (s cur : string) :
  GoStrings.Count cur sep = 0 ->
  Forall (fun seg => GoStrings.Count seg sep = 0) (GoStrings.splitOn sep cur s).
Proof.
  revert cur. induction s as [|c s IH]; intros cur Hcur; simpl.
  - now constructor.
  - destruct (Ascii.eqb c sep) eqn:Hc.
    + constructor; [exact Hcur | now apply IH].
    + apply IH. rewrite Count_app. simpl. rewrite Hc, Hcur. reflexivity.
Qed.

(** The split of a repository name returns. *)
Lemma splitSubOrganizations_split (name : string) :
  exists subOrgs repoName,
    Management.splitSubOrganizationsFromRepositoryName name
    = Returns (subOrgs, repoName).
Proof.
  unfold Management.splitSubOrganizationsFromRepositoryName, GoStrings.Split.
  pose proof (splitOn_length "/" name "") as Hlen.
  destruct (GoStrings.splitOn "/" "" name) as [|a [|b rest]] eqn:Hsplit;
    simpl in Hlen.
  - lia.
  - eauto.
  - set (elements := a :: b :: rest) in *.
    assert (Hlast : exists last, elements !! (length (b :: rest)) = Some last).
    { apply lookup_lt_is_Some. subst elements. simpl. lia. }
    destruct Hlast as [last Hlast].
    change (length elements) with (S (S (length rest))).
    cbn [length] in Hlast. cbn iota. cbn [Nat.sub].
    rewrite Hlast. eauto.
Qed.

(** X1.  [splitSubOrganizationsFromRepositoryName] never panics; joining the
    sub-organizations and the repository name with slashes gives the name
    back; neither holds a slash, and there is one sub-organization per slash
    of the name. *)
Theorem splitSubOrganizations_round_trip (name : string) :
  exists subOrgs repoName,
    Management.splitSubOrganizationsFromRepositoryName name
    = Returns (subOrgs, repoName)
    /\ GoStringsExt.Join (subOrgs ++ [repoName])%list "/" = name
    /\ GoStrings.Count repoName "/" = 0
    /\ Forall (fun org => GoStrings.Count org "/" = 0) subOrgs
    /\ length subOrgs = GoStrings.Count name "/".
Proof.
  unfold Management.splitSubOrganizationsFromRepositoryName, GoStrings.Split.
  pose proof (splitOn_length "/" name "") as Hlen.
  pose proof (splitOn_segments "/" name "" eq_refl) as Hseg.
  pose proof (Join_splitOn "/" name "") as Hjoin.
  rewrite append_nil in Hjoin.
  destruct (GoStrings.splitOn "/" "" name) as [|a [|b rest]] eqn:Hsplit;
    simpl in Hlen.
  - lia.
  - exists [], name. simpl in Hjoin. subst a.
    repeat split; try constructor.
    + now inversion Hseg.
    + simpl. lia.
  - set (elements := a :: b :: rest) in *.
    assert (Hlast : exists last, elements !! (length (b :: rest)) = Some last).
    { apply lookup_lt_is_Some. subst elements. simpl. lia. }
    destruct Hlast as [last Hlast].
    change (length elements) with (S (S (length rest))).
    cbn [length] in Hlast. cbn iota. cbn [Nat.sub].
    rewrite Hlast.
    assert (Hall : (take (S (length rest)) elements ++ [last])%list = elements).
    { rewrite <- (take_S_r _ _ _ Hlast).
      apply take_ge. subst elements. simpl. lia. }
    exists (take (S (length rest)) elements), last.
    split; [reflexivity |]. rewrite Hall.
    split; [exact Hjoin |].
    rewrite <- Hall in Hseg. apply Forall_app in Hseg. destruct Hseg as [Hs Hl].
    split; [now inversion Hl |]. split; [exact Hs |].
    rewrite length_take. subst elements. simpl in *. lia.
Qed.

End SplitFacts.

(** ** Defaults of the bootstrap options *)

Section DefaultsFacts.

Context {Client RESTClientGetter Printer ProviderClient UserRepository : Type}.

Abbreviation optionsT := (@Bootstrap.options Client RESTClientGetter Printer).
Abbreviation OptionT := (@Bootstrap.Option Client RESTClientGetter Printer).
Abbreviation NewT :=
  (@Bootstrap.New Client RESTClientGetter Printer ProviderClient UserRepository).
Abbreviation setDefaultsT :=
  (@Bootstrap.setDefaults Client RESTClientGetter Printer ProviderClient UserRepository).

Lemma orDefault_not_empty (field default : string) :
  default <> "" -> Bootstrap.orDefault field default <> "".
Proof.
  unfold Bootstrap.orDefault. intros Hd.
  destruct (String.eqb field "") eqn:Hf; [exact Hd | now apply String.eqb_neq].
Qed.

Lemma orDefault_idem (field default : string) :
  Bootstrap.orDefault (Bootstrap.orDefault field default) default
  = Bootstrap.orDefault field default.
Proof.
  unfold Bootstrap.orDefault.
  destruct (String.eqb field "") eqn:Hf.
  - now destruct (String.eqb default "").
  - now rewrite Hf.
Qed.

(** X2.  Whatever the options, the Bootstrap that [New] returns has a
    description, a default branch, a visibility and a transport type that are
    not empty, and [setDefaults] leaves it as it is. *)
Theorem New_defaults_invariant (pc : option ProviderClient) (os : list OptionT) :
  let b := Bootstrap.New (UserRepository := UserRepository) pc os in
  Bootstrap.description (Bootstrap.opts b) <> ""
  /\ Bootstrap.defaultBranch (Bootstrap.opts b) <> ""
  /\ Bootstrap.visibility (Bootstrap.opts b) <> ""
  /\ Bootstrap.transportType (Bootstrap.opts b) <> ""
  /\ Bootstrap.setDefaults b = b.
Proof.
  intros b. subst b. unfold Bootstrap.New, Bootstrap.setDefaults. simpl.
  repeat split; try (apply orDefault_not_empty; discriminate).
  unfold Bootstrap.setDefaultsOptions. simpl.
  now rewrite !orDefault_idem.
Qed.

Lemma applyOptions_snoc (os : list OptionT) (opt : OptionT) (o : optionsT) :
  Bootstrap.applyOptions (os ++ [opt])%list o = opt (Bootstrap.applyOptions os o).
Proof. unfold Bootstrap.applyOptions. now rewrite fold_left_app. Qed.


(** X4.  The repository information built from the options of a Bootstrap
    made by [New] always carries a description, a default branch and a
    visibility; in general a field is left unset exactly when its value is
    empty. *)
Theorem newRepositoryInfo_of_New (pc : option ProviderClient) (os : list OptionT) :
  (let o := Bootstrap.opts (NewT pc os) in
   Management.newRepositoryInfo (Bootstrap.description o)
     (Bootstrap.defaultBranch o) (Bootstrap.visibility o)
   = Management.mkRepositoryInfo (Some (Bootstrap.description o))
       (Some (Bootstrap.defaultBranch o)) (Some (Bootstrap.visibility o)))
  /\ (forall d b v : string,
        (Management.InfoDescription (Management.newRepositoryInfo d b v) = None
         <-> d = "")
        /\ (Management.InfoDefaultBranch (Management.newRepositoryInfo d b v) = None
            <-> b = "")
        /\ (Management.InfoVisibility (Management.newRepositoryInfo d b v) = None
            <-> v = "")).
Proof.
  split.
  - cbv zeta. unfold Bootstrap.New. simpl.
    unfold Management.newRepositoryInfo, Management.setIfNotEmpty.
    repeat match goal with
           | |- context [String.eqb (Bootstrap.orDefault ?f ?d) ""] =>
               let H := fresh in
               assert (H : String.eqb (Bootstrap.orDefault f d) "" = false)
                 by (apply String.eqb_neq, orDefault_not_empty; discriminate);
               rewrite H; clear H
           end.
    reflexivity.
  - intros d b v.
    unfold Management.newRepositoryInfo, Management.setIfNotEmpty. simpl.
    repeat split;
      match goal with
      | |- context [String.eqb ?x ""] =>
          destruct (String.eqb_spec x ""); simpl; congruence
      end.
Qed.

End DefaultsFacts.

(** ** The management repository *)

Section ManagementFacts.
Import Management.

Context {P KubeClient RESTClientGetter Printer ProviderClient : Type}.
Variable client : Client P.

Abbreviation BootstrapM :=
  (@Bootstrap.BootstrapT KubeClient RESTClientGetter Printer ProviderClient
     UserRepository).


(** X6.  [reconcileManagementRepository] with the SSH transport: the
    repository is looked up or created first, then the call fails; the
    Bootstrap is left as it was, so that with no repository recorded
    [DeleteManagementRepository] refuses and calls nothing. *)
Theorem reconcileManagementRepository_ssh (b : BootstrapM) (p p' : P)
    (repo : UserRepository) :
  Bootstrap.transportType (Bootstrap.opts b) = TransportTypeSSH client ->
  reconcileRepository client b (Bootstrap.personal (Bootstrap.opts b)) p
  = (Returns (Ok repo), p') ->
  reconcileManagementRepository client b p
  = (Returns (Some (errors_New "SSH transport is not supported"), b), p')
  /\ (Bootstrap.repository b = None ->
      forall q,
        DeleteManagementRepository client b q
        = (Some (errors_New "management repository is not set"), q)).
Proof.
  intros Hssh Hrec. split.
  - unfold reconcileManagementRepository, getCloneURL.
    rewrite Hrec, Hssh, String.eqb_refl. reflexivity.
  - intros Hnone q. unfold DeleteManagementRepository. now rewrite Hnone.
Qed.

(** X7.  When [reconcileManagementRepository] returns nil, the Bootstrap
    records the repository that [reconcileRepository] returned and its clone
    URL, the options are untouched, the transport is not SSH, and
    [DeleteManagementRepository] then deletes that repository. *)
Theorem reconcileManagementRepository_success (b b' : BootstrapM) (p p' : P) :
  reconcileManagementRepository client b p = (Returns (None, b'), p') ->
  exists repo,
    reconcileRepository client b (Bootstrap.personal (Bootstrap.opts b)) p
    = (Returns (Ok repo), p')
    /\ Bootstrap.repository b' = Some repo
    /\ getCloneURL client repo (Bootstrap.transportType (Bootstrap.opts b))
       = Ok (Bootstrap.url b')
    /\ Bootstrap.opts b' = Bootstrap.opts b
    /\ Bootstrap.transportType (Bootstrap.opts b) <> TransportTypeSSH client
    /\ (forall q,
          DeleteManagementRepository client b' q
          = match repo_Delete client repo q with
            | (Some err, q') =>
                (Some (fmt_Errorf "failed to delete management repository" err), q')
            | (None, q') => (None, q')
            end).
Proof.
  unfold reconcileManagementRepository.
  destruct (reconcileRepository client b _ p) as [[[repo|err]|msg] p1] eqn:Hrec;
    try discriminate.
  - destruct (getCloneURL client repo _) as [cloneURL|err] eqn:Hurl;
      [| discriminate].
    intros [= <- <-]. exists repo. simpl.
    split; [reflexivity |]. split; [reflexivity |]. split; [exact Hurl |].
    split; [reflexivity |]. split; [| reflexivity].
    unfold getCloneURL in Hurl.
    destruct (String.eqb_spec (Bootstrap.transportType (Bootstrap.opts b))
                (TransportTypeSSH client)); [discriminate | assumption].
  - destruct (negb (IsReconciledWithWarning client err)); discriminate.
Qed.

End ManagementFacts.


(** With SSH the repository is created and the call fails. *)
Lemma reconcileManagementRepository_ssh_example :
  Management.reconcileManagementRepository ScriptedProvider.client
    (ScriptedProvider.bootstrap "mgmt" "ssh") []
  = (Returns (Some (errors_New "SSH transport is not supported"),
              ScriptedProvider.bootstrap "mgmt" "ssh"),
     ["mgmt"]).
Proof.
  refine (proj1 (reconcileManagementRepository_ssh ScriptedProvider.client
                   (ScriptedProvider.bootstrap "mgmt" "ssh") [] ["mgmt"]
                   (ScriptedProvider.handle "mgmt") _ _));
    vm_compute; reflexivity.
Defined.

(** With HTTPS the repository is created and recorded. *)
Lemma reconcileManagementRepository_success_example :
  exists repo,
    Management.reconcileRepository ScriptedProvider.client
      (ScriptedProvider.bootstrap "mgmt" "https")
      (Bootstrap.personal (Bootstrap.opts (ScriptedProvider.bootstrap "mgmt" "https")))
      []
    = (Returns (Ok repo), ["mgmt"])
    /\ Bootstrap.repository
         (Management.setRepository (ScriptedProvider.bootstrap "mgmt" "https")
            (ScriptedProvider.handle "mgmt") "https://example.org/mgmt")
       = Some repo.
Proof.
  assert (H : Management.reconcileManagementRepository ScriptedProvider.client
                (ScriptedProvider.bootstrap "mgmt" "https") []
              = (Returns
                   (None,
                    Management.setRepository (ScriptedProvider.bootstrap "mgmt" "https")
                      (ScriptedProvider.handle "mgmt") "https://example.org/mgmt"),
                 ["mgmt"]))
    by (vm_compute; reflexivity).
  destruct (reconcileManagementRepository_success ScriptedProvider.client _ _ _ _ H)
    as (repo & Hrec & Hrepo & _).
  exists repo. split; [exact Hrec | exact Hrepo].
Defined.

(** ** The provider registry *)

Section RegistryFacts.
Import GitProviders.

Context {Client : Type}.
Variable github_NewClient : list ClientOption -> result Client.

(** X8.  [Build] calls the factory registered last under the provider name
    and is unchanged for every other name.  With the registry that [init]
    leaves, only the GitHub provider is supported: its client is built with
    the token and the destructive-calls flag, and with the domain only when a
    hostname is given; any other provider name is refused. *)
Theorem Build_registry :
  (forall (m : gmap string (@factoryFunc Client)) name factory opts,
      Build (register m name factory) opts
      = if String.eqb name (Provider opts) then factory opts else Build m opts)
  /\ (forall opts,
        Build (providers github_NewClient) opts
        = if String.eqb ProviderGithub (Provider opts)
          then github_NewClient
                 ([WithOAuth2Token (Token opts);
                   WithDestructiveAPICalls (DestructiveActions opts)]
                  ++ (if String.eqb (Hostname opts) "" then []
                      else [WithDomain (Hostname opts)]))%list
          else Err (errors_New ("provider " ++ Provider opts ++ " not supported"))).
Proof.
  assert (Hreg : forall (m : gmap string (@factoryFunc Client)) name factory opts,
             Build (register m name factory) opts
             = if String.eqb name (Provider opts) then factory opts else Build m opts).
  { intros m name factory opts. unfold Build, register.
    destruct (String.eqb_spec name (Provider opts)) as [->|Hne].
    - now rewrite lookup_insert_eq.
    - now rewrite lookup_insert_ne. }
  split; [exact Hreg |].
  intros opts. unfold providers. rewrite Hreg.
  destruct (String.eqb ProviderGithub (Provider opts)).
  - unfold githubProviderFunc.
    destruct (String.eqb (Hostname opts) ""); simpl;
      now destruct (github_NewClient _).
  - unfold Build. now rewrite lookup_empty.
Qed.

End RegistryFacts.

(** ** Computations that return *)

Section ReturnFacts.
Import Run.

Context {W : Type}.

Lemma returnsWith_ret {A} (P : Op -> bool) (a : A) : returnsWith P (ret (W:=W) a).
Proof. intros s. exists a, s. split; [reflexivity | apply extends_refl]. Qed.

Lemma returnsWith_bind {A B} (P : Op -> bool) (m : M W A) (k : A -> M W B) :
  returnsWith P m -> (forall a, returnsWith P (k a)) -> returnsWith P (bind m k).
Proof.
  intros Hm Hk s. destruct (Hm s) as (a & s1 & Hrun & Hext).
  destruct (Hk a s1) as (b & s2 & Hrun2 & Hext2).
  exists b, s2. rewrite bind_run, Hrun. split; [exact Hrun2 |].
  eapply extends_trans; eassumption.
Qed.

Lemma returnsWith_callErr (P : Op -> bool) (op : Op) (f : W -> option error * W) :
  P op = true -> returnsWith P (callErr op f).
Proof.
  intros H s. unfold callErr. destruct (f (world s)) as [r w].
  eexists _, _. split; [reflexivity | now apply extends_event].
Qed.

Lemma returnsWith_callRes {A} (P : Op -> bool) (op : Op) (f : W -> result A * W) :
  P op = true -> returnsWith P (callRes op f).
Proof.
  intros H s. unfold callRes. destruct (f (world s)) as [r w].
  eexists _, _. split; [reflexivity | now apply extends_event].
Qed.

Lemma returnsWith_callVal {A} (P : Op -> bool) (op : Op) (f : W -> A * W) :
  P op = true -> returnsWith P (callVal op f).
Proof.
  intros H s. unfold callVal. destruct (f (world s)) as [r w].
  eexists _, _. split; [reflexivity | now apply extends_event].
Qed.

Lemma returnsWith_mark (P : Op -> bool) (op : Op) :
  P op = true -> returnsWith P (mark (W:=W) op).
Proof.
  intros H s. unfold mark.
  eexists _, _. split; [reflexivity | now apply extends_event].
Qed.

Lemma extends_weaken (P Q : Op -> bool) (s s' : State W) :
  (forall op, P op = true -> Q op = true) -> extends P s s' -> extends Q s s'.
Proof.
  intros HPQ (evs & Htr & Hall). exists evs. split; [exact Htr |].
  eapply Forall_impl; [exact Hall |]. intros e He. now apply HPQ.
Qed.

Lemma returnsWith_weaken {A} (P Q : Op -> bool) (m : M W A) :
  (forall op, P op = true -> Q op = true) -> returnsWith P m -> returnsWith Q m.
Proof.
  intros HPQ Hm s. destruct (Hm s) as (a & s' & Hrun & Hext).
  exists a, s'. split; [exact Hrun |]. eapply extends_weaken; eassumption.
Qed.

(** Calls that pass [P] hold no call of a kind that [P] excludes. *)
Lemma extends_count (P p : Op -> bool) (evs : list Event) :
  (forall op, P op = true -> p op = false) ->
  Forall (fun e => P (evOp e) = true) evs -> countOps p evs = 0.
Proof.
  intros Hex Hall. apply countOps_none.
  eapply Forall_impl; [exact Hall |]. intros e He. simpl.
  now rewrite (Hex _ He).
Qed.

End ReturnFacts.

(** Steps through a computation that returns. *)
Ltac returns_step :=
  first
    [ apply returnsWith_ret
    | apply returnsWith_callErr; reflexivity
    | apply returnsWith_callRes; reflexivity
    | apply returnsWith_callVal; reflexivity
    | apply returnsWith_mark; reflexivity
    | apply returnsWith_bind; [| intros ?]
    | match goal with
      | |- returnsWith _ (match ?x with _ => _ end) => destruct x
      | |- returnsWith _ (if ?b then _ else _) => destruct b
      end ].

(** ** The resolution loop, in full *)

Section ResolveMoreFacts.
Import OCM.

Variable sv : Semver.Lib.

(** X9.  What the loop of [getComponentVersion] returns tells the listing
    apart: a version, when the names before the one it was parsed from all
    parse and fail the check; nil, when every name parses and fails the
    check; the parse error of a name, when the names before it all parse and
    fail the check. *)
Theorem findVersion_cases (constraint : Semver.Constraints sv)
    (vnames : list string) :
  match Flux.findVersion sv constraint vnames with
  | Ok (Some v) =>
      exists pre vname post,
        vnames = (pre ++ vname :: post)%list
        /\ Forall (fun s => parses sv s = true /\ satisfies constraint s = false) pre
        /\ Semver.NewVersion sv vname = Ok v
        /\ Semver.Check sv constraint v = true
  | Ok None =>
      Forall (fun s => parses sv s = true /\ satisfies constraint s = false) vnames
  | Err e =>
      exists pre vname post,
        vnames = (pre ++ vname :: post)%list
        /\ Forall (fun s => parses sv s = true /\ satisfies constraint s = false) pre
        /\ Semver.NewVersion sv vname = Err e
  end.
Proof.
  induction vnames as [|s rest IH]; simpl.
  - constructor.
  - destruct (Semver.NewVersion sv s) as [v|e] eqn:Hp.
    + destruct (Semver.Check sv constraint v) eqn:Hc.
      * exists [], s, rest. repeat split; auto.
      * assert (Hs : parses sv s = true /\ satisfies constraint s = false)
          by (unfold parses, satisfies; rewrite Hp; auto).
        destruct (Flux.findVersion sv constraint rest) as [[v'|]|e'].
        -- destruct IH as (pre & vname & post & -> & Hpre & Hv & Hck).
           exists (s :: pre), vname, post. repeat split; auto.
        -- constructor; assumption.
        -- destruct IH as (pre & vname & post & -> & Hpre & Hv).
           exists (s :: pre), vname, post. repeat split; auto.
    + exists [], s, rest. repeat split; auto.
Qed.

End ResolveMoreFacts.

(** ** Extraction, in full *)

Section ExtractMoreFacts.
Import OCM.

Variable AutoDecompress : ReadCloser -> result (ReadCloser * bool).

(** X10.  [getResourceRef] panics exactly when the access specification is
    obtained and is either not an OCI artifact one or holds a reference
    without colon. *)
Theorem getResourceRef_panics (resource : ResourceAccess) :
  (exists msg, Flux.getResourceRef resource = Panics msg)
  <-> ((exists kind, Access resource = Ok (OtherAccessSpec kind))
       \/ (exists im, Access resource = Ok (OCIArtifactAccessSpec im)
                      /\ GoStrings.Count im ":" = 0)).
Proof.
  unfold Flux.getResourceRef, GoStrings.Split.
  destruct (Access resource) as [[im|kind]|e].
  - destruct (Nat.eq_dec (GoStrings.Count im ":") 0) as [H0|Hn].
    + rewrite (splitOn_none ":" im "" H0). split; [| eauto].
      intros _. right. eauto.
    + destruct (splitOn_two ":" im "" ltac:(lia)) as (a & b & rest & ->).
      split.
      * intros [msg Hm]. discriminate.
      * intros [[kind Hk]|[im' [[= <-] H0]]]; [discriminate | contradiction].
  - split; eauto.
  - split.
    + intros [msg Hm]. discriminate.
    + intros [[kind Hk]|[im [Hk _]]]; discriminate.
Qed.

(** The content of a resource, when it is read, is never the nil slice. *)
Lemma getResourceContent_not_nil (resource : ResourceAccess) (b : bytes) :
  Flux.getResourceContent AutoDecompress resource = Ok b -> exists data, b = Some data.
Proof.
  unfold Flux.getResourceContent, io_ReadAll.
  destruct (AccessMethod resource) as [access|]; [| discriminate].
  destruct (Reader access) as [reader|]; [| discriminate].
  destruct (AutoDecompress reader) as [[r d]|]; [| discriminate].
  destruct (streamErr r); [discriminate |].
  intros [= <-]. eauto.
Qed.

(** The loop over a listing in two parts is the loop over the second part,
    from what the first part accumulated. *)
Lemma getResourcesLoop_app (componentName : string) (pre post : list ResourceAccess)
    (acc : resources) :
  Flux.getResourcesLoop AutoDecompress componentName (pre ++ post)%list acc
  = match Flux.getResourcesLoop AutoDecompress componentName pre acc with
    | Returns (Ok acc') =>
        Flux.getResourcesLoop AutoDecompress componentName post acc'
    | other => other
    end.
Proof.
  revert acc. induction pre as [|x pre IH]; intros acc; simpl.
  - reflexivity.
  - destruct (String.eqb (Meta_Name x) componentName).
    + destruct (Flux.getResourceContent AutoDecompress x); [apply IH | reflexivity].
    + destruct (String.eqb (Meta_Name x) "ocm-config").
      * destruct (Flux.getResourceContent AutoDecompress x);
          [apply IH | reflexivity].
      * destruct (String.eqb (Meta_Type x) "ociImage"); [| apply IH].
        destruct (Flux.getResourceRef x) as [[n v]|]; [apply IH | reflexivity].
Qed.

Lemma getResourcesLoop_components (componentName : string)
    (res : list ResourceAccess) (acc r : resources) :
  Flux.getResourcesLoop AutoDecompress componentName res acc = Returns (Ok r) ->
  compomentsList r
  = (compomentsList acc
     ++ map Meta_Name (List.filter (isImageResource componentName) res))%list
  /\ forall k,
       is_Some (imagesResources r !! k)
       <-> is_Some (imagesResources acc !! k)
           \/ In k (map Meta_Name (List.filter (isImageResource componentName) res)).
Proof.
  revert acc. induction res as [|x res IH]; intros acc; simpl.
  - intros [= <-]. rewrite app_nil_r. split; [reflexivity |]. tauto.
  - assert (Himg : isImageResource componentName x
                   = negb (String.eqb (Meta_Name x) componentName)
                     && negb (String.eqb (Meta_Name x) "ocm-config")
                     && String.eqb (Meta_Type x) "ociImage") by reflexivity.
    rewrite Himg. clear Himg.
    destruct (String.eqb (Meta_Name x) componentName); simpl.
    + destruct (Flux.getResourceContent AutoDecompress x); [| discriminate].
      intros H. now destruct (IH _ H).
    + destruct (String.eqb (Meta_Name x) "ocm-config"); simpl.
      * destruct (Flux.getResourceContent AutoDecompress x); [| discriminate].
        intros H. now destruct (IH _ H).
      * destruct (String.eqb (Meta_Type x) "ociImage"); simpl; [| apply IH].
        destruct (Flux.getResourceRef x) as [[n v]|]; [| discriminate].
        intros H. destruct (IH _ H) as [Hl Hk]. simpl in Hl, Hk. split.
        -- rewrite Hl, <- app_assoc. reflexivity.
        -- intros k. rewrite Hk, lookup_insert_is_Some.
           destruct (decide (Meta_Name x = k)); intuition congruence.
Qed.

(** X11.  After a successful extraction the component list holds the names
    of the image resources, those named neither like the component nor like
    the config document, in bundle order, and the coordinates are keyed by
    exactly those names. *)
Theorem getResources_components (cv : ComponentVersionAccess)
    (componentName : string) (r : resources) :
  Flux.getResources AutoDecompress cv componentName = Returns (Ok r) ->
  compomentsList r
  = map Meta_Name (List.filter (isImageResource componentName) (GetResources cv))
  /\ forall k, is_Some (imagesResources r !! k) <-> In k (compomentsList r).
Proof.
  intros H. destruct (getResourcesLoop_components _ _ _ _ H) as [Hl Hk].
  simpl in Hl, Hk. split; [exact Hl |].
  intros k. rewrite Hk, Hl, lookup_empty.
  split; [intros [[? ?]|?]; [discriminate | assumption] | auto].
Qed.

Lemma getResourcesLoop_keeps_component (componentName : string)
    (res : list ResourceAccess) (acc r : resources) :
  Forall (fun x => Meta_Name x <> componentName) res ->
  Flux.getResourcesLoop AutoDecompress componentName res acc = Returns (Ok r) ->
  componentResource r = componentResource acc.
Proof.
  intros Hres. revert acc. induction Hres as [|x res Hx _ IH]; intros acc; simpl.
  - now intros [= <-].
  - apply String.eqb_neq in Hx. rewrite Hx.
    destruct (String.eqb (Meta_Name x) "ocm-config").
    + destruct (Flux.getResourceContent _ x); [| discriminate].
      intros H. now rewrite (IH _ H).
    + destruct (String.eqb (Meta_Type x) "ociImage").
      * destruct (Flux.getResourceRef x) as [[n v]|]; [| discriminate].
        intros H. now rewrite (IH _ H).
      * apply IH.
Qed.

Lemma getResourcesLoop_keeps_config (componentName : string)
    (res : list ResourceAccess) (acc r : resources) :
  Forall (fun x => Meta_Name x = componentName \/ Meta_Name x <> "ocm-config") res ->
  Flux.getResourcesLoop AutoDecompress componentName res acc = Returns (Ok r) ->
  ocmConfig r = ocmConfig acc.
Proof.
  intros Hres. revert acc. induction Hres as [|x res Hx _ IH]; intros acc; simpl.
  - now intros [= <-].
  - destruct (String.eqb_spec (Meta_Name x) componentName) as [Heq|Hne].
    + destruct (Flux.getResourceContent _ x); [| discriminate].
      intros H. now rewrite (IH _ H).
    + destruct Hx as [Hx|Hx]; [contradiction |].
      apply String.eqb_neq in Hx. rewrite Hx.
      destruct (String.eqb (Meta_Type x) "ociImage").
      * destruct (Flux.getResourceRef x) as [[n v]|]; [| discriminate].
        intros H. now rewrite (IH _ H).
      * apply IH.
Qed.

(** X12.  When several resources are named like the component, or like the
    config document, the last one in bundle order is the one extracted. *)
Theorem getResources_last_wins (cv : ComponentVersionAccess)
    (componentName : string) (pre post : list ResourceAccess)
    (x : ResourceAccess) (content : bytes) (r : resources) :
  GetResources cv = (pre ++ x :: post)%list ->
  Flux.getResourceContent AutoDecompress x = Ok content ->
  Flux.getResources AutoDecompress cv componentName = Returns (Ok r) ->
  (Meta_Name x = componentName ->
   Forall (fun y => Meta_Name y <> componentName) post ->
   componentResource r = content)
  /\ (Meta_Name x = "ocm-config" ->
      componentName <> "ocm-config" ->
      Forall (fun y => Meta_Name y <> "ocm-config") post ->
      ocmConfig r = content).
Proof.
  intros Hres Hcontent Hrun. unfold Flux.getResources in Hrun.
  rewrite Hres, getResourcesLoop_app in Hrun.
  destruct (Flux.getResourcesLoop AutoDecompress componentName pre _)
    as [[acc|e]|msg]; try discriminate.
  simpl in Hrun. split.
  - intros Hname Hpost. apply String.eqb_eq in Hname.
    rewrite Hname, Hcontent in Hrun.
    now rewrite (getResourcesLoop_keeps_component _ _ _ _ Hpost Hrun).
  - intros Hname Hne Hpost.
    assert (Hx : String.eqb (Meta_Name x) componentName = false)
      by (apply String.eqb_neq; congruence).
    apply String.eqb_eq in Hname. rewrite Hx, Hname, Hcontent in Hrun.
    rewrite (getResourcesLoop_keeps_config _ _ _ _
               (Forall_impl _ _ _ Hpost (fun y H => or_intror H)) Hrun).
    reflexivity.
Qed.

End ExtractMoreFacts.

(** ** Footprints of the phases *)

Section PhaseFacts.
Import OCM Run.

Context {W : Type}.
Variable sys : Sys W.

Lemma removeEntries_returns (dirs : list string) (err : option error) :
  returnsWith cloneOp (FluxInstall.removeEntries sys dirs err).
Proof.
  revert err. induction dirs as [|d dirs IH]; intros err; simpl.
  - apply returnsWith_ret.
  - repeat returns_step; apply IH.
Qed.

Lemma cleanAndClone_returns (f : FluxInstall.fluxInstall) :
  returnsWith cloneOp (FluxInstall.cleanAndClone sys f).
Proof.
  unfold FluxInstall.cleanAndClone, FluxInstall.cleanGitRepoDir.
  repeat returns_step. apply removeEntries_returns.
Qed.

Lemma retry_returns_lemma (P : Op -> bool) (retries wait : Z)
    (fn : M W (option error)) :
  returnsWith P fn ->
  P (TimeSleep wait) = true ->
  returnsWith P (FluxInstall.retry sys retries wait fn).
Proof.
  intros Hfn Hsleep. unfold FluxInstall.retry.
  assert (H : forall fuel i,
             (retries - i <= Z.of_nat fuel)%Z ->
             returnsWith P (FluxInstall.retryFrom sys fuel i retries wait fn)).
  { induction fuel as [|fuel IH]; intros i Hfuel; simpl.
    - apply returnsWith_bind; [exact Hfn | intros [e|]];
        [| apply returnsWith_ret].
      assert (Hge : (i >=? retries)%Z = true) by (apply Z.geb_le; lia).
      rewrite Hge. apply returnsWith_ret.
    - apply returnsWith_bind; [exact Hfn | intros [e|]];
        [| apply returnsWith_ret].
      destruct (i >=? retries)%Z eqn:Hge; [apply returnsWith_ret |].
      apply returnsWith_bind; [now apply returnsWith_callVal | intros _].
      apply IH. rewrite Z.geb_leb in Hge. apply Z.leb_gt in Hge. lia. }
  apply H. lia.
Qed.

(** X13.  [retry] returns whenever its closure does, for every count and
    wait: the loop is bounded, and its calls are those of the closure and
    the sleeps.  It returns nil only from a state in which the closure just
    returned nil. *)
Theorem retry_returns (P : Op -> bool) (retries wait : Z)
    (fn : M W (option error)) :
  returnsWith P fn ->
  P (TimeSleep wait) = true ->
  returnsWith P (FluxInstall.retry sys retries wait fn)
  /\ forall s s',
       FluxInstall.retry sys retries wait fn s = (Returns None, s') ->
       exists s0, fn s0 = (Returns None, s').
Proof.
  intros Hfn Hsleep. split; [now apply retry_returns_lemma |].
  unfold FluxInstall.retry. generalize (Z.to_nat retries) 0%Z.
  induction n as [|fuel IH]; intros i s s'; simpl; rewrite bind_run;
    destruct (fn s) as [[[e|]|msg] s1] eqn:Hrun; try discriminate.
  - destruct (i >=? retries)%Z; discriminate.
  - intros [= <-]. eauto.
  - destruct (i >=? retries)%Z; [discriminate |].
    rewrite bind_run. unfold callVal. apply IH.
  - intros [= <-]. eauto.
Qed.

Lemma cloneRepository_returns (f : FluxInstall.fluxInstall) :
  returnsWith cloneOp (FluxInstall.cloneRepository sys f).
Proof.
  unfold FluxInstall.cloneRepository.
  apply returnsWith_bind; [returns_step | intros herr].
  destruct herr as [err|]; [| apply returnsWith_ret].
  destruct (negb (isErrNoGitRepository err)); [apply returnsWith_ret |].
  apply returnsWith_bind; [| intros ?; repeat returns_step].
  apply retry_returns_lemma; [apply cleanAndClone_returns | reflexivity].
Qed.

Lemma forallb_isNone (rms : list (option error)) :
  forallb isNone rms = true <-> Forall (fun r => r = None) rms.
Proof.
  rewrite forallb_forall, List.Forall_forall. split; intros H r Hr.
  - specialize (H r Hr). now destruct r.
  - rewrite (H r Hr). reflexivity.
Qed.

(** X14.  [cleanGitRepoDir] returns the listing error as it is, without
    removing anything; with a listing, it calls [os.RemoveAll] on every entry,
    in order, also after a removal failed, and returns nil exactly when every
    removal succeeded. *)
Theorem cleanGitRepoDir_every_entry (s : State W) :
  match os_ReadDir sys (git_Path sys) (world s) with
  | (Err e, w) =>
      FluxInstall.cleanGitRepoDir sys s
      = (Returns (Some e),
         mkState w (trace s ++ [mkEvent (OsReadDir (git_Path sys)) (Some e)])%list)
  | (Ok dirs, w) =>
      exists rms err s',
        length rms = length dirs
        /\ FluxInstall.cleanGitRepoDir sys s = (Returns err, s')
        /\ trace s' = (trace s
                       ++ mkEvent (OsReadDir (git_Path sys)) None
                          :: removalEvents sys dirs rms)%list
        /\ (err = None <-> Forall (fun r => r = None) rms)
  end.
Proof.
  unfold FluxInstall.cleanGitRepoDir. rewrite bind_run. unfold callRes.
  destruct (os_ReadDir sys (git_Path sys) (world s)) as [[dirs|e] w];
    [| reflexivity].
  destruct (removeEntries_all sys dirs None
              (mkState w (trace s ++ [mkEvent (OsReadDir (git_Path sys)) None])%list))
    as (rms & err & s' & Hlen & Hrun & Htr & Hnone).
  exists rms, err, s'. split; [exact Hlen |]. split; [exact Hrun |].
  split.
  - rewrite Htr. simpl. now rewrite <- app_assoc.
  - rewrite <- forallb_isNone. simpl in Hnone. rewrite <- Hnone.
    destruct err; simpl; split; congruence.
Qed.

Lemma generateKustomization_returns (f : FluxInstall.fluxInstall)
    (fluxResource ocmConfig : bytes) :
  returnsWith generationOp
    (FluxInstall.generateKustomization sys f fluxResource ocmConfig).
Proof.
  unfold FluxInstall.generateKustomization, FluxInstall.genKus,
    FluxInstall.generateKustomizationFile.
  repeat returns_step.
Qed.

Lemma generateGOTKComponent_returns (f : FluxInstall.fluxInstall)
    (kconfig : ConfigData) (images : gmap string nameTag)
    (kus : Kustomization) (kfile : string) :
  returnsWith generationOp
    (FluxInstall.generateGOTKComponent sys f kconfig images kus kfile).
Proof.
  unfold FluxInstall.generateGOTKComponent, FluxInstall.buildKustomization.
  repeat returns_step.
Qed.

(** X15.  Manifest generation always returns, and calls only the files of
    the work directory, the lock and the templating build: it makes no Git
    call and no cluster call. *)
Theorem generation_footprint (f : FluxInstall.fluxInstall)
    (fluxResource ocmConfig : bytes) (kconfig : ConfigData)
    (images : gmap string nameTag) (kus : Kustomization) (kfile : string)
    (s : State W) :
  (exists r s' evs,
      FluxInstall.generateKustomization sys f fluxResource ocmConfig s
      = (Returns r, s')
      /\ trace s' = (trace s ++ evs)%list
      /\ Forall (fun e => generationOp (evOp e) = true) evs
      /\ countOps isGitOp evs = 0
      /\ countOps isApply evs = 0)
  /\ (exists r s' evs,
        FluxInstall.generateGOTKComponent sys f kconfig images kus kfile s
        = (Returns r, s')
        /\ trace s' = (trace s ++ evs)%list
        /\ Forall (fun e => generationOp (evOp e) = true) evs
        /\ countOps isGitOp evs = 0
        /\ countOps isApply evs = 0).
Proof.
  split.
  - destruct (generateKustomization_returns f fluxResource ocmConfig s)
      as (r & s' & Hrun & evs & Htr & Hall).
    exists r, s', evs. repeat split; try assumption;
      apply (extends_count generationOp); try assumption;
      intros []; simpl; congruence.
  - destruct (generateGOTKComponent_returns f kconfig images kus kfile s)
      as (r & s' & Hrun & evs & Htr & Hall).
    exists r, s', evs. repeat split; try assumption;
      apply (extends_count generationOp); try assumption;
      intros []; simpl; congruence.
Qed.

(** X16.  [buildKustomization] never returns holding the lock: the lock is
    taken at most once, only after the descriptor was written, the build runs
    between taking and releasing it, and a rendered result comes only from
    such a run. *)
Theorem buildKustomization_lock (kus : Kustomization) (kfile dir : string)
    (s : State W) :
  exists r s' evs,
    FluxInstall.buildKustomization sys kus kfile dir s = (Returns r, s')
    /\ trace s' = (trace s ++ evs)%list
    /\ countOps isLock evs = countOps isUnlock evs
    /\ countOps isBuild evs = countOps isLock evs
    /\ countOps isLock evs <= 1
    /\ (countOps isLock evs = 1 ->
        exists manifest berr,
          yaml_Marshal sys kus = Ok manifest
          /\ evs = [mkEvent (OsWriteFile kfile manifest) None;
                    mkEvent MuLock None;
                    mkEvent (KustomizeBuild dir) berr;
                    mkEvent MuUnlock None])
    /\ (forall res, r = Ok res -> countOps isLock evs = 1).
Proof.
  unfold FluxInstall.buildKustomization.
  destruct (yaml_Marshal sys kus) as [manifest|e].
  - unfold bind, callErr, callRes, mark, ret.
    destruct (os_WriteFile sys kfile manifest (world s)) as [[e|] w1]; simpl.
    + eexists _, _, [_]. split; [reflexivity |]. split; [reflexivity |].
      unfold countOps. simpl. repeat split; try lia; discriminate.
    + destruct (kustomize_Build sys dir w1) as [[m|e] w2]; simpl.
      * destruct (AsYaml m) as [res|e]; simpl;
          (eexists _, _, [_; _; _; _]; split; [reflexivity |];
           split; [now rewrite <- !app_assoc |];
           unfold countOps; simpl;
           split; [lia |]; split; [lia |]; split; [lia |];
           split; [intros _; eauto | intros; (lia || discriminate)]).
      * eexists _, _, [_; _; _; _]. split; [reflexivity |].
        split; [now rewrite <- !app_assoc |].
        unfold countOps. simpl.
        split; [lia |]. split; [lia |]. split; [lia |].
        split; [intros _; eauto | intros; discriminate].
  - eexists _, _, []. split; [reflexivity |].
    split; [now rewrite app_nil_r |].
    unfold countOps. simpl.
    split; [lia |]. split; [lia |]. split; [lia |].
    split; [intros; lia | intros; discriminate].
Qed.

End PhaseFacts.

(** ** Reconciliation and installation, in full *)

Section InstallMoreFacts.
Import OCM Run.

Context {W : Type}.
Variable sv : Semver.Lib.
Variable sys : Sys W.

Lemma commitAndPushComponents_run (f : FluxInstall.fluxInstall)
    (path content : string) (s : State W) :
  exists r s' evs,
    FluxInstall.commitAndPushComponents sys f path content s = (Returns r, s')
    /\ trace s' = (trace s ++ evs)%list
    /\ Forall (fun e => commitOp (evOp e) = true) evs
    /\ countOps isCommit evs = 1.
Proof.
  unfold FluxInstall.commitAndPushComponents, bind, callErr, ret.
  destruct (git_Commit sys _ path content (world s)) as [[e|] w1]; simpl.
  - destruct (negb (isErrNoStagedFiles e));
      (eexists _, _, [_]; split; [reflexivity |]; split; [reflexivity |];
       split; [repeat constructor | reflexivity]).
  - destruct (git_Push sys w1) as [[e|] w2]; simpl;
      (eexists _, _, [_; _]; split; [reflexivity |];
       split; [now rewrite <- !app_assoc |];
       split; [repeat constructor | reflexivity]).
Qed.

(** The phases of [reconcileComponents], by their calls. *)
Lemma reconcileComponents_run (f : FluxInstall.fluxInstall)
    (path content : string) (s : State W) :
  exists r s' evs,
    FluxInstall.reconcileComponents sys f path content s = (Returns r, s')
    /\ trace s' = (trace s ++ evs)%list
    /\ countOps isCommit evs <= 1
    /\ countOps isMustInstall evs <= 1
    /\ countOps isApply evs <= 1
    /\ (countOps isApply evs = 1 -> countOps isMustInstall evs = 1)
    /\ (countOps isMustInstall evs = 1 -> countOps isCommit evs = 1)
    /\ (r = None -> countOps isCommit evs = 1 /\ countOps isMustInstall evs = 1)
    /\ (forall e, r = Some (fmt_Errorf "failed to clone repository" e) ->
        countOps isCommit evs = 0 /\ countOps isMustInstall evs = 0)
    /\ (forall e, r = Some (fmt_Errorf "failed to commit and push components" e) ->
        countOps isCommit evs = 1 /\ countOps isMustInstall evs = 0)
    /\ (forall e, r = Some (fmt_Errorf "failed to apply components" e) ->
        countOps isApply evs = 1).
Proof.
  unfold FluxInstall.reconcileComponents. rewrite bind_run.
  destruct (cloneRepository_returns sys f s) as (cerr & s1 & Hrun1 & evs1 & Htr1 & Hall1).
  rewrite Hrun1.
  assert (Hc1 : countOps isCommit evs1 = 0)
    by (apply (extends_count cloneOp); [intros []; simpl; congruence | exact Hall1]).
  assert (Hm1 : countOps isMustInstall evs1 = 0)
    by (apply (extends_count cloneOp); [intros []; simpl; congruence | exact Hall1]).
  assert (Ha1 : countOps isApply evs1 = 0)
    by (apply (extends_count cloneOp); [intros []; simpl; congruence | exact Hall1]).
  destruct cerr as [e1|].
  { exists (Some (fmt_Errorf "failed to clone repository" e1)), s1, evs1.
    split; [reflexivity |]. split; [exact Htr1 |].
    rewrite Hc1, Hm1, Ha1.
    repeat split; intros; try lia; discriminate. }
  rewrite bind_run.
  destruct (commitAndPushComponents_run f path content s1)
    as (perr & s2 & evs2 & Hrun2 & Htr2 & Hall2 & Hc2).
  rewrite Hrun2.
  assert (Hm2 : countOps isMustInstall evs2 = 0)
    by (apply (extends_count commitOp); [intros []; simpl; congruence | exact Hall2]).
  assert (Ha2 : countOps isApply evs2 = 0)
    by (apply (extends_count commitOp); [intros []; simpl; congruence | exact Hall2]).
  destruct perr as [e2|].
  { exists (Some (fmt_Errorf "failed to commit and push components" e2)), s2,
      (evs1 ++ evs2)%list.
    split; [reflexivity |]. split; [now rewrite Htr2, Htr1, app_assoc |].
    rewrite !countOps_app, Hc1, Hm1, Ha1, Hc2, Hm2, Ha2.
    repeat split; intros; try lia; discriminate. }
  unfold FluxInstall.mustInstallManifests, FluxInstall.applyFile,
    bind, callVal, callErr, ret.
  destruct (kube_MustInstallKustomization sys _ _ (world s2)) as [[|] w3]; simpl.
  - destruct (os_Stat sys _ w3) as [serr w4]; simpl.
    destruct serr as [se|];
      (match goal with
       | |- context [kube_Apply sys ?a ?b ?w] =>
           destruct (kube_Apply sys a b w) as [[ae|] w5]
       end; simpl;
       (eexists _, _, (evs1 ++ evs2 ++ [_; _; _])%list;
        split; [reflexivity |];
        split; [simpl; rewrite Htr2, Htr1, <- !app_assoc; reflexivity |];
        rewrite !countOps_app, !countOps_cons, !countOps_nil,
          Hc1, Hm1, Ha1, Hc2, Hm2, Ha2; simpl;
        repeat split; intros; try lia; discriminate)).
  - eexists _, _, (evs1 ++ evs2 ++ [_])%list.
    split; [reflexivity |].
    split; [simpl; rewrite Htr2, Htr1, <- !app_assoc; reflexivity |].
    rewrite !countOps_app, !countOps_cons, !countOps_nil,
      Hc1, Hm1, Ha1, Hc2, Hm2, Ha2; simpl.
    repeat split; intros; try lia; discriminate.
Qed.


(** X18.  When the content of a resource named like the component, or like
    the config document, cannot be read, and the resources before it were
    extracted, [Install] fails with that error wrapped as a failure to get
    resources, before any call to a collaborator. *)
Theorem Install_unreadable_resource (f : FluxInstall.fluxInstall)
    (component : string) (cv : ComponentVersionAccess)
    (pre post : list ResourceAccess) (x : ResourceAccess)
    (acc : resources) (e : error) (st : State W) :
  Flux.getComponentVersion sv (FluxInstall.repository f)
    (FluxInstall.componentName f) (FluxInstall.version f) = Ok cv ->
  GetResources cv = (pre ++ x :: post)%list ->
  Flux.getResourcesLoop (AutoDecompress sys) component pre
    (mkResources None None ∅ []) = Returns (Ok acc) ->
  Meta_Name x = component \/ Meta_Name x = "ocm-config" ->
  Flux.getResourceContent (AutoDecompress sys) x = Err e ->
  FluxInstall.Install sv sys f component st
  = (Returns (Some (fmt_Errorf "failed to get resources" e)), st).
Proof.
  intros Hcv Hres Hpre Hname Hcontent.
  assert (Hget : Flux.getResources (AutoDecompress sys) cv component
                 = Returns (Err e)).
  { unfold Flux.getResources. rewrite Hres, getResourcesLoop_app, Hpre. simpl.
    destruct (String.eqb (Meta_Name x) component) eqn:Hc.
    - now rewrite Hcontent.
    - destruct Hname as [Hn|Hn].
      + apply String.eqb_neq in Hc. contradiction.
      + apply String.eqb_eq in Hn. now rewrite Hn, Hcontent. }
  unfold FluxInstall.Install. rewrite Hcv, bind_run. unfold liftOutcome.
  now rewrite Hget.
Qed.

Lemma getResourcesLoop_has_component (componentName : string)
    (res : list ResourceAccess) (acc r : resources) :
  Flux.getResourcesLoop (AutoDecompress sys) componentName res acc = Returns (Ok r) ->
  FluxInstall.isNil (componentResource acc) = false
  \/ Exists (fun x => Meta_Name x = componentName) res ->
  FluxInstall.isNil (componentResource r) = false.
Proof.
  revert acc. induction res as [|x res IH]; intros acc; simpl.
  - intros [= <-] [H|H]; [exact H | inversion H].
  - destruct (String.eqb_spec (Meta_Name x) componentName) as [Heq|Hne].
    + destruct (Flux.getResourceContent _ x) as [b|] eqn:Hb; [| discriminate].
      destruct (getResourceContent_not_nil _ _ _ Hb) as [data ->].
      intros H _. apply (IH _ H). now left.
    + assert (Hnext : forall acc',
                 componentResource acc' = componentResource acc ->
                 Flux.getResourcesLoop (AutoDecompress sys) componentName res acc'
                 = Returns (Ok r) ->
                 FluxInstall.isNil (componentResource acc) = false
                 \/ Exists (fun x => Meta_Name x = componentName) (x :: res) ->
                 FluxInstall.isNil (componentResource r) = false).
      { intros acc' Hacc H [Hnil|Hex]; apply (IH _ H).
        - left. now rewrite Hacc.
        - inversion Hex; subst; [contradiction | now right]. }
      destruct (String.eqb (Meta_Name x) "ocm-config").
      * destruct (Flux.getResourceContent _ x); [| discriminate].
        now apply Hnext.
      * destruct (String.eqb (Meta_Type x) "ociImage"); [| now apply Hnext].
        destruct (Flux.getResourceRef x) as [[n v]|]; [| discriminate].
        now apply Hnext.
Qed.

Lemma getResourcesLoop_has_config (componentName : string)
    (res : list ResourceAccess) (acc r : resources) :
  componentName <> "ocm-config" ->
  Flux.getResourcesLoop (AutoDecompress sys) componentName res acc = Returns (Ok r) ->
  FluxInstall.isNil (ocmConfig acc) = false
  \/ Exists (fun x => Meta_Name x = "ocm-config") res ->
  FluxInstall.isNil (ocmConfig r) = false.
Proof.
  intros Hcomp. revert acc. induction res as [|x res IH]; intros acc; simpl.
  - intros [= <-] [H|H]; [exact H | inversion H].
  - assert (Hnext : forall acc',
               ocmConfig acc' = ocmConfig acc ->
               Meta_Name x <> "ocm-config" ->
               Flux.getResourcesLoop (AutoDecompress sys) componentName res acc'
               = Returns (Ok r) ->
               FluxInstall.isNil (ocmConfig acc) = false
               \/ Exists (fun x => Meta_Name x = "ocm-config") (x :: res) ->
               FluxInstall.isNil (ocmConfig r) = false).
    { intros acc' Hacc Hx H [Hnil|Hex]; apply (IH _ H).
      - left. now rewrite Hacc.
      - inversion Hex; subst; [contradiction | now right]. }
    destruct (String.eqb_spec (Meta_Name x) componentName) as [Heq|Hne].
    + destruct (Flux.getResourceContent _ x); [| discriminate].
      apply Hnext; [reflexivity | congruence].
    + destruct (String.eqb_spec (Meta_Name x) "ocm-config") as [Hcfg|Hncfg].
      * destruct (Flux.getResourceContent _ x) as [b|] eqn:Hb; [| discriminate].
        destruct (getResourceContent_not_nil _ _ _ Hb) as [data ->].
        intros H _. apply (IH _ H). now left.
      * destruct (String.eqb (Meta_Type x) "ociImage"); [| now apply Hnext].
        destruct (Flux.getResourceRef x) as [[n v]|]; [| discriminate].
        now apply Hnext.
Qed.

(** X19.  When the bundle holds a resource named like the component and one
    named [ocm-config] (two different names) and its extraction succeeds,
    neither is nil, also when its content is empty: [Install] goes past the
    missing-resource check, and its first call writes the primary manifest to
    [gotk-components.yaml] in the work directory; the failure of that write
    is returned as it is. *)
Theorem Install_present_resources (f : FluxInstall.fluxInstall)
    (component : string) (cv : ComponentVersionAccess) (r : resources)
    (st : State W) :
  Flux.getComponentVersion sv (FluxInstall.repository f)
    (FluxInstall.componentName f) (FluxInstall.version f) = Ok cv ->
  Flux.getResources (AutoDecompress sys) cv component = Returns (Ok r) ->
  component <> "ocm-config" ->
  Exists (fun x => Meta_Name x = component) (GetResources cv) ->
  Exists (fun x => Meta_Name x = "ocm-config") (GetResources cv) ->
  exists manifest config,
    componentResource r = Some manifest
    /\ ocmConfig r = Some config
    /\ forall e w1,
         os_WriteFile sys (filepath_Join sys (FluxInstall.dir f) "gotk-components.yaml")
           (Some manifest) (world st) = (Some e, w1) ->
         FluxInstall.Install sv sys f component st
         = (Returns (Some e),
            mkState w1
              (trace st
               ++ [mkEvent
                     (OsWriteFile
                        (filepath_Join sys (FluxInstall.dir f) "gotk-components.yaml")
                        (Some manifest))
                     (Some e)])%list).
Proof.
  intros Hcv Hres Hne Hcomp Hcfg.
  pose proof (getResourcesLoop_has_component _ _ _ _ Hres (or_intror Hcomp)) as H1.
  pose proof (getResourcesLoop_has_config _ _ _ _ Hne Hres (or_intror Hcfg)) as H2.
  destruct (componentResource r) as [manifest|] eqn:Hm; [| discriminate].
  destruct (ocmConfig r) as [config|] eqn:Hc; [| discriminate].
  exists manifest, config. split; [reflexivity |]. split; [reflexivity |].
  intros e w1 Hwrite.
  unfold FluxInstall.Install. rewrite Hcv, bind_run. unfold liftOutcome.
  rewrite Hres, Hm, Hc. simpl.
  unfold FluxInstall.generateKustomization.
  rewrite !bind_run. unfold callErr. now rewrite Hwrite.
Qed.

(** X20.  An image resource whose reference holds no colon makes [Install]
    panic instead of returning an error, before any call, when the resources
    before it were extracted. *)
Theorem Install_untagged_image_panics (f : FluxInstall.fluxInstall)
    (component : string) (cv : ComponentVersionAccess)
    (pre post : list ResourceAccess) (x : ResourceAccess)
    (acc : resources) (im : string) (st : State W) :
  Flux.getComponentVersion sv (FluxInstall.repository f)
    (FluxInstall.componentName f) (FluxInstall.version f) = Ok cv ->
  GetResources cv = (pre ++ x :: post)%list ->
  Flux.getResourcesLoop (AutoDecompress sys) component pre
    (mkResources None None ∅ []) = Returns (Ok acc) ->
  isImageResource component x = true ->
  Access x = Ok (OCIArtifactAccessSpec im) ->
  GoStrings.Count im ":" = 0 ->
  exists msg,
    Flux.getResources (AutoDecompress sys) cv component = Panics msg
    /\ FluxInstall.Install sv sys f component st = (Panics msg, st).
Proof.
  intros Hcv Hres Hpre Himg Hacc Hcount.
  unfold isImageResource in Himg.
  apply andb_true_iff in Himg. destruct Himg as [Himg Htype].
  apply andb_true_iff in Himg. destruct Himg as [Hn1 Hn2].
  apply negb_true_iff in Hn1, Hn2.
  assert (Href : Flux.getResourceRef x
                 = Panics "index out of range [1] with length 1").
  { unfold Flux.getResourceRef, GoStrings.Split.
    now rewrite Hacc, (splitOn_none ":" im "" Hcount). }
  exists "index out of range [1] with length 1".
  assert (Hget : Flux.getResources (AutoDecompress sys) cv component
                 = Panics "index out of range [1] with length 1").
  { unfold Flux.getResources. rewrite Hres, getResourcesLoop_app, Hpre. simpl.
    now rewrite Hn1, Hn2, Htype, Href. }
  split; [exact Hget |].
  unfold FluxInstall.Install. rewrite Hcv, bind_run. unfold liftOutcome.
  now rewrite Hget.
Qed.

(** X21.  When [Install] returns nil, exactly one commit was attempted, the
    source secret and the sync configuration were reconciled without error,
    with the options [Install] builds, and both health reports were made and
    returned nil. *)
Theorem Install_success (f : FluxInstall.fluxInstall) (component : string)
    (st st' : State W) :
  FluxInstall.Install sv sys f component st = (Returns None, st') ->
  exists evs components,
    trace st' = (trace st ++ evs)%list
    /\ countOps isCommit evs = 1
    /\ In (mkEvent (ReconcileSourceSecret (FluxInstall.secretOptions sys f)) None) evs
    /\ In (mkEvent (ReconcileSyncConfig (FluxInstall.syncOptions sys f)) None) evs
    /\ In (mkEvent
             (ReportKustomizationHealth (FluxInstall.syncOptions sys f)
                (DefaultPollInterval sys) (FluxInstall.timeout f))
             None) evs
    /\ In (mkEvent
             (ReportComponentsHealth
                (mkInstallOptions (FluxInstall.namespace f) components)
                (FluxInstall.timeout f))
             None) evs.
Proof.
  unfold FluxInstall.Install.
  destruct (Flux.getComponentVersion _ _ _ _) as [cv|e]; [| discriminate].
  rewrite bind_run. unfold liftOutcome.
  destruct (Flux.getResources _ cv component) as [[r|e]|msg]; try discriminate.
  destruct (FluxInstall.isNil _ || FluxInstall.isNil _); [discriminate |].
  rewrite bind_run.
  destruct (generateKustomization_returns sys f (componentResource r) (ocmConfig r) st)
    as (gen & s1 & Hrun1 & evs1 & Htr1 & Hall1).
  rewrite Hrun1. destruct gen as [[kfile kus]|e]; [| discriminate].
  destruct (FluxInstall.unMarshallConfig _ _) as [kconfig|e]; [| discriminate].
  rewrite bind_run.
  destruct (generateGOTKComponent_returns sys f kconfig (imagesResources r) kus kfile s1)
    as (res & s2 & Hrun2 & evs2 & Htr2 & Hall2).
  rewrite Hrun2. destruct res as [res|e]; [| discriminate].
  rewrite bind_run.
  destruct (reconcileComponents_run f
              (FluxInstall.targetPath f ++ "/" ++ FluxInstall.namespace f
               ++ "/" ++ "gotk-components.yaml")
              (FluxInstall.stringOfBytes res) s2)
    as (rerr & s3 & evs3 & Hrun3 & Htr3 & _ & _ & _ & _ & _ & Hnil & _).
  rewrite Hrun3. destruct rerr as [e|]; [discriminate |].
  destruct (Hnil eq_refl) as [Hc3 _].
  assert (Hc1 : countOps isCommit evs1 = 0)
    by (apply (extends_count generationOp); [intros []; simpl; congruence | exact Hall1]).
  assert (Hc2 : countOps isCommit evs2 = 0)
    by (apply (extends_count generationOp); [intros []; simpl; congruence | exact Hall2]).
  unfold FluxInstall.reportHealth, bind, callErr, ret.
  destruct (flux_ReconcileSourceSecret sys _ (world s3)) as [[e|] w4]; simpl;
    [discriminate |].
  destruct (flux_ReconcileSyncConfig sys _ w4) as [[e|] w5]; simpl;
    [discriminate |].
  destruct (flux_ReportKustomizationHealth sys _ _ _ w5) as [[e|] w6]; simpl.
  { destruct (flux_ReportComponentsHealth sys _ _ w6) as [[e'|] w7]; simpl;
      discriminate. }
  destruct (flux_ReportComponentsHealth sys _ _ w6) as [[e|] w7]; simpl;
    [discriminate |].
  intros [= <-].
  eexists (evs1 ++ evs2 ++ evs3 ++ [_; _; _; _])%list, (compomentsList r).
  split.
  { simpl. rewrite Htr3, Htr2, Htr1, <- !app_assoc. reflexivity. }
  split.
  { rewrite !countOps_app, !countOps_cons, !countOps_nil, Hc1, Hc2, Hc3.
    reflexivity. }
  repeat split; rewrite !in_app_iff; do 3 right; simpl; tauto.
Qed.

End InstallMoreFacts.

(** ** From the bundle to the image override *)

Section CoordinateFacts.
Import OCM.

Variable AutoDecompress : ReadCloser -> result (ReadCloser * bool).

Lemma getResourcesLoop_keeps_image (componentName k : string)
    (res : list ResourceAccess) (acc r : resources) :
  Forall (fun y => Meta_Name y <> k) res ->
  Flux.getResourcesLoop AutoDecompress componentName res acc = Returns (Ok r) ->
  imagesResources r !! k = imagesResources acc !! k.
Proof.
  intros Hres. revert acc. induction Hres as [|y res Hy _ IH]; intros acc; simpl.
  - now intros [= <-].
  - destruct (String.eqb (Meta_Name y) componentName).
    + destruct (Flux.getResourceContent _ y); [| discriminate].
      intros H. now rewrite (IH _ H).
    + destruct (String.eqb (Meta_Name y) "ocm-config").
      * destruct (Flux.getResourceContent _ y); [| discriminate].
        intros H. now rewrite (IH _ H).
      * destruct (String.eqb (Meta_Type y) "ociImage"); [| apply IH].
        destruct (Flux.getResourceRef y) as [[n v]|]; [| discriminate].
        intros H. rewrite (IH _ H). simpl. now apply lookup_insert_ne.
Qed.

(** X22.  An image resource with the reference [name:tag], the last of its
    name in the bundle, is extracted under its resource name as the
    coordinate [(name, tag)], and a localization rule naming that resource
    then yields the override from the default host joined with the resource
    name to that name and tag. *)
Theorem getResources_coordinate (cv : ComponentVersionAccess)
    (componentName : string) (pre post : list ResourceAccess)
    (x : ResourceAccess) (name tag : string) (r : resources) :
  GetResources cv = (pre ++ x :: post)%list ->
  isImageResource componentName x = true ->
  Access x = Ok (OCIArtifactAccessSpec (name ++ ":" ++ tag)) ->
  GoStrings.Count name ":" = 0 ->
  GoStrings.Count tag ":" = 0 ->
  Forall (fun y => Meta_Name y <> Meta_Name x) post ->
  Flux.getResources AutoDecompress cv componentName = Returns (Ok r) ->
  imagesResources r !! Meta_Name x = Some (mkNameTag name tag)
  /\ forall host file image kus,
       Images
         (Flux.localizeImages host
            (mkConfigData [mkLocalizationRule (Meta_Name x) file image])
            (imagesResources r) kus)
       = (Images kus ++ [mkImage (host ++ "/" ++ Meta_Name x) name tag])%list.
Proof.
  intros Hres Himg Hacc Hname Htag Hpost Hrun.
  assert (Hlookup : imagesResources r !! Meta_Name x = Some (mkNameTag name tag)).
  { unfold Flux.getResources in Hrun.
    rewrite Hres, getResourcesLoop_app in Hrun.
    destruct (Flux.getResourcesLoop AutoDecompress componentName pre _)
      as [[acc|e]|msg]; try discriminate.
    simpl in Hrun.
    unfold isImageResource in Himg.
    apply andb_true_iff in Himg. destruct Himg as [Himg Htype].
    apply andb_true_iff in Himg. destruct Himg as [Hn1 Hn2].
    apply negb_true_iff in Hn1, Hn2.
    rewrite Hn1, Hn2, Htype in Hrun.
    assert (Href : Flux.getResourceRef x = Returns (name, tag)).
    { unfold Flux.getResourceRef, GoStrings.Split. rewrite Hacc.
      change (":" ++ tag)%string with (String ":" tag).
      rewrite splitOn_first by exact Hname.
      now rewrite splitOn_none by exact Htag. }
    rewrite Href in Hrun.
    rewrite (getResourcesLoop_keeps_image _ _ _ _ _ Hpost Hrun). simpl.
    apply lookup_insert_eq. }
  split; [exact Hlookup |].
  intros host file image kus. unfold Flux.localizeImages, Flux.lookupImage. simpl.
  now rewrite Hlookup.
Qed.

End CoordinateFacts.

(** ** The further properties on the scripted world *)

(** A bundle with two images. *)
Lemma getResources_components_example :
  exists r,
    Flux.getResources (Run.AutoDecompress Scripted.sys)
      (OCM.mkComponentVersion "v0.1.0"
         [Scripted.imageResource "source-controller"
            (Ok (OCM.OCIArtifactAccessSpec "ghcr.io/fluxcd/source-controller:v1.0.0"));
          Scripted.fileResource "flux" [Byte.x61];
          Scripted.imageResource "helm-controller"
            (Ok (OCM.OCIArtifactAccessSpec "ghcr.io/fluxcd/helm-controller:v0.9.0"));
          Scripted.fileResource "ocm-config" [Byte.x62]])
      "flux"
    = Returns (Ok r)
    /\ compomentsList r = ["source-controller"; "helm-controller"].
Proof.
  destruct (Flux.getResources (Run.AutoDecompress Scripted.sys)
              (OCM.mkComponentVersion "v0.1.0"
                 [Scripted.imageResource "source-controller"
                    (Ok (OCM.OCIArtifactAccessSpec
                           "ghcr.io/fluxcd/source-controller:v1.0.0"));
                  Scripted.fileResource "flux" [Byte.x61];
                  Scripted.imageResource "helm-controller"
                    (Ok (OCM.OCIArtifactAccessSpec
                           "ghcr.io/fluxcd/helm-controller:v0.9.0"));
                  Scripted.fileResource "ocm-config" [Byte.x62]])
              "flux") as [[r|e]|msg] eqn:H;
    [| vm_compute in H; discriminate | vm_compute in H; discriminate].
  exists r. split; [reflexivity |].
  exact (proj1 (getResources_components _ _ _ _ H)).
Defined.

(** Two resources named like the component: the second is extracted. *)
Lemma getResources_last_wins_example :
  exists r,
    Flux.getResources (Run.AutoDecompress Scripted.sys)
      (OCM.mkComponentVersion "v0.1.0"
         [Scripted.fileResource "flux" [Byte.x61];
          Scripted.fileResource "flux" [Byte.x62];
          Scripted.fileResource "ocm-config" [Byte.x63]])
      "flux"
    = Returns (Ok r)
    /\ componentResource r = Some [Byte.x62].
Proof.
  destruct (Flux.getResources (Run.AutoDecompress Scripted.sys)
              (OCM.mkComponentVersion "v0.1.0"
                 [Scripted.fileResource "flux" [Byte.x61];
                  Scripted.fileResource "flux" [Byte.x62];
                  Scripted.fileResource "ocm-config" [Byte.x63]])
              "flux") as [[r|e]|msg] eqn:H;
    [| vm_compute in H; discriminate | vm_compute in H; discriminate].
  exists r. split; [reflexivity |].
  apply (proj1 (getResources_last_wins (Run.AutoDecompress Scripted.sys)
                  (OCM.mkComponentVersion "v0.1.0"
                     [Scripted.fileResource "flux" [Byte.x61];
                      Scripted.fileResource "flux" [Byte.x62];
                      Scripted.fileResource "ocm-config" [Byte.x63]])
                  "flux"
                  [Scripted.fileResource "flux" [Byte.x61]]
                  [Scripted.fileResource "ocm-config" [Byte.x63]]
                  (Scripted.fileResource "flux" [Byte.x62])
                  (Some [Byte.x62]) r eq_refl eq_refl H));
    [reflexivity |].
  repeat constructor. discriminate.
Defined.

(** Three retries of a closure that is one call. *)
Lemma retry_returns_example :
  returnsWith (fun _ => true)
    (FluxInstall.retry Scripted.sys 3 FluxInstall.Second
       (Run.callErr (Run.CallFn "fn") Scripted.answer)).
Proof.
  exact (proj1 (retry_returns Scripted.sys (fun _ => true) 3 FluxInstall.Second
                  (Run.callErr (Run.CallFn "fn") Scripted.answer)
                  (returnsWith_callErr _ _ _ eq_refl) eq_refl)).
Defined.

(** A primary manifest whose content cannot be read. *)
Lemma Install_unreadable_resource_example :
  FluxInstall.Install SemverRef.lib Scripted.sys
    (Scripted.installer ["v0.1.0"]
       [OCM.mkResource "flux" "file" (Ok (OCM.OtherAccessSpec "localBlob"))
          (Err (errorString "blob not found"))])
    "flux" (Scripted.start [])
  = (Returns (Some (fmt_Errorf "failed to get resources" (errorString "blob not found"))),
     Scripted.start []).
Proof.
  apply (Install_unreadable_resource SemverRef.lib Scripted.sys
           (Scripted.installer ["v0.1.0"]
              [OCM.mkResource "flux" "file" (Ok (OCM.OtherAccessSpec "localBlob"))
                 (Err (errorString "blob not found"))])
           "flux"
           (OCM.mkComponentVersion "v0.1.0"
              [OCM.mkResource "flux" "file" (Ok (OCM.OtherAccessSpec "localBlob"))
                 (Err (errorString "blob not found"))])
           [] []
           (OCM.mkResource "flux" "file" (Ok (OCM.OtherAccessSpec "localBlob"))
              (Err (errorString "blob not found")))
           (mkResources None None ∅ []) (errorString "blob not found")
           (Scripted.start []) eq_refl eq_refl eq_refl (or_introl eq_refl) eq_refl).
Defined.

(** An empty primary manifest is present: the first call writes it. *)
Lemma Install_present_resources_example :
  FluxInstall.Install SemverRef.lib Scripted.sys
    (Scripted.installer ["v0.1.0"]
       [Scripted.fileResource "flux" [];
        Scripted.fileResource "ocm-config" [Byte.x61]])
    "flux" (Scripted.start [Some (errorString "disk full")])
  = (Returns (Some (errorString "disk full")),
     Run.mkState []
       [Run.mkEvent
          (Run.OsWriteFile "/tmp/flux-install/gotk-components.yaml" (Some []))
          (Some (errorString "disk full"))]).
Proof.
  destruct (Install_present_resources SemverRef.lib Scripted.sys
              (Scripted.installer ["v0.1.0"]
                 [Scripted.fileResource "flux" [];
                  Scripted.fileResource "ocm-config" [Byte.x61]])
              "flux"
              (OCM.mkComponentVersion "v0.1.0"
                 [Scripted.fileResource "flux" [];
                  Scripted.fileResource "ocm-config" [Byte.x61]])
              (mkResources (Some []) (Some [Byte.x61]) ∅ [])
              (Scripted.start [Some (errorString "disk full")])
              eq_refl eq_refl)
    as (manifest & config & Hm & _ & Hwrite).
  - discriminate.
  - simpl. constructor 1. reflexivity.
  - simpl. constructor 2. constructor 1. reflexivity.
  - injection Hm as <-.
    exact (Hwrite (errorString "disk full") [] eq_refl).
Defined.

(** An image reference without tag. *)
Lemma Install_untagged_image_example :
  exists msg,
    FluxInstall.Install SemverRef.lib Scripted.sys
      (Scripted.installer ["v0.1.0"]
         [Scripted.fileResource "flux" [Byte.x61];
          Scripted.imageResource "source-controller"
            (Ok (OCM.OCIArtifactAccessSpec "ghcr.io/fluxcd/source-controller"))])
      "flux" (Scripted.start [])
    = (Panics msg, Scripted.start []).
Proof.
  destruct (Install_untagged_image_panics SemverRef.lib Scripted.sys
              (Scripted.installer ["v0.1.0"]
                 [Scripted.fileResource "flux" [Byte.x61];
                  Scripted.imageResource "source-controller"
                    (Ok (OCM.OCIArtifactAccessSpec "ghcr.io/fluxcd/source-controller"))])
              "flux"
              (OCM.mkComponentVersion "v0.1.0"
                 [Scripted.fileResource "flux" [Byte.x61];
                  Scripted.imageResource "source-controller"
                    (Ok (OCM.OCIArtifactAccessSpec "ghcr.io/fluxcd/source-controller"))])
              [Scripted.fileResource "flux" [Byte.x61]] []
              (Scripted.imageResource "source-controller"
                 (Ok (OCM.OCIArtifactAccessSpec "ghcr.io/fluxcd/source-controller")))
              (mkResources (Some [Byte.x61]) None ∅ [])
              "ghcr.io/fluxcd/source-controller" (Scripted.start [])
              eq_refl eq_refl eq_refl eq_refl eq_refl eq_refl)
    as (msg & _ & Hrun).
  exists msg. exact Hrun.
Defined.

(** A run in which every call succeeds. *)
Lemma Install_success_example :
  exists st' evs,
    FluxInstall.Install SemverRef.lib Scripted.sys
      (Scripted.installer ["v0.1.0"]
         [Scripted.fileResource "flux" [Byte.x61];
          Scripted.fileResource "ocm-config" [Byte.x62]])
      "flux" (Scripted.start [])
    = (Returns None, st')
    /\ Run.trace st' = ([] ++ evs)%list
    /\ Run.countOps Run.isCommit evs = 1.
Proof.
  destruct (FluxInstall.Install SemverRef.lib Scripted.sys
              (Scripted.installer ["v0.1.0"]
                 [Scripted.fileResource "flux" [Byte.x61];
                  Scripted.fileResource "ocm-config" [Byte.x62]])
              "flux" (Scripted.start [])) as [[[e|]|msg] st'] eqn:H;
    [vm_compute in H; discriminate | | vm_compute in H; discriminate].
  destruct (Install_success SemverRef.lib Scripted.sys _ _ _ _ H)
    as (evs & components & Htr & Hcommit & _).
  exists st', evs. split; [reflexivity |]. split; [exact Htr | exact Hcommit].
Defined.

(** An image resource and the rule that names it. *)
Lemma getResources_coordinate_example :
  exists r,
    Flux.getResources (Run.AutoDecompress Scripted.sys)
      (OCM.mkComponentVersion "v0.1.0"
         [Scripted.fileResource "flux" [Byte.x61];
          Scripted.imageResource "source-controller"
            (Ok (OCM.OCIArtifactAccessSpec
                   ("ghcr.io/fluxcd/source-controller" ++ ":" ++ "v1.0.0")));
          Scripted.fileResource "ocm-config" [Byte.x62]])
      "flux"
    = Returns (Ok r)
    /\ imagesResources r !! "source-controller"
       = Some (mkNameTag "ghcr.io/fluxcd/source-controller" "v1.0.0").
Proof.
  destruct (Flux.getResources (Run.AutoDecompress Scripted.sys)
              (OCM.mkComponentVersion "v0.1.0"
                 [Scripted.fileResource "flux" [Byte.x61];
                  Scripted.imageResource "source-controller"
                    (Ok (OCM.OCIArtifactAccessSpec
                           ("ghcr.io/fluxcd/source-controller" ++ ":" ++ "v1.0.0")));
                  Scripted.fileResource "ocm-config" [Byte.x62]])
              "flux") as [[r|e]|msg] eqn:H;
    [| vm_compute in H; discriminate | vm_compute in H; discriminate].
  exists r. split; [reflexivity |].
  refine (proj1 (getResources_coordinate (Run.AutoDecompress Scripted.sys)
                   (OCM.mkComponentVersion "v0.1.0"
                      [Scripted.fileResource "flux" [Byte.x61];
                       Scripted.imageResource "source-controller"
                         (Ok (OCM.OCIArtifactAccessSpec
                                ("ghcr.io/fluxcd/source-controller" ++ ":"
                                 ++ "v1.0.0")));
                       Scripted.fileResource "ocm-config" [Byte.x62]])
                   "flux"
                   [Scripted.fileResource "flux" [Byte.x61]]
                   [Scripted.fileResource "ocm-config" [Byte.x62]]
                   (Scripted.imageResource "source-controller"
                      (Ok (OCM.OCIArtifactAccessSpec
                             ("ghcr.io/fluxcd/source-controller" ++ ":" ++ "v1.0.0"))))
                   "ghcr.io/fluxcd/source-controller" "v1.0.0" r
                   eq_refl eq_refl eq_refl eq_refl eq_refl _ H)).
  repeat constructor. discriminate.
Defined.
